(** * PiTamagotchi: the pet state machine of tamagotchi.py and tam_sim.py

    A shallow embedding of the [PiTamagotchi] class as it is written in
    [tamagotchi.py] (the e-Paper build) and in [tam_sim.py] (the simulator
    build), with the pseudo-random generator made an explicit state that
    [update_tick] threads through its [random.randint] calls. *)

From Stdlib Require Import ZArith String Ascii DecimalString Bool List Lia.
Import ListNotations.

#[local] Open Scope string_scope.
#[local] Open Scope Z_scope.

(** ** The pet object

    The attributes set by [__init__], except [last_tick]: that one is a wall
    clock reading which only the main loop reads and writes; no method of the
    class looks at it after construction. *)

Record pet : Type := mkPet {
  hunger    : Z;
  happiness : Z;
  age       : Z;
  is_asleep : bool;
  state     : string
}.

(** Attribute assignment, [self.x = v]. *)

Definition set_hunger (p : pet) (v : Z) : pet :=
  mkPet v (happiness p) (age p) (is_asleep p) (state p).

Definition set_happiness (p : pet) (v : Z) : pet :=
  mkPet (hunger p) v (age p) (is_asleep p) (state p).

Definition set_age (p : pet) (v : Z) : pet :=
  mkPet (hunger p) (happiness p) v (is_asleep p) (state p).

Definition set_is_asleep (p : pet) (v : bool) : pet :=
  mkPet (hunger p) (happiness p) (age p) v (state p).

Definition set_state (p : pet) (v : string) : pet :=
  mkPet (hunger p) (happiness p) (age p) (is_asleep p) v.

(** ** The random module

    The generator is a tape of raw integers and a read position.
    [randint a b] reads one cell and maps it into the closed range [a..b],
    as Python's [random.randint] returns an N with a <= N <= b. *)

Record rng : Type := mkRng {
  tape   : nat -> Z;
  cursor : nat
}.

Definition randint (a b : Z) (g : rng) : Z * rng :=
  (a + tape g (cursor g) mod (b - a + 1), mkRng (tape g) (S (cursor g))).

(** The generator after [n] calls of [randint], and the value the [n]-th
    coming call yields for the range [a..b]. *)

Definition advance (n : nat) (g : rng) : rng :=
  mkRng (tape g) (n + cursor g).

Definition draw (a b : Z) (n : nat) (g : rng) : Z :=
  fst (randint a b (advance n g)).

(** A generator whose coming calls return the listed raw cells, then zeros. *)

Definition rng_of (cells : list Z) : rng :=
  mkRng (fun n => nth n cells 0) 0.

(** ** The display, the console and the clock

    What the module-level code hands to its collaborators. An image is the
    canvas of [Image.new] with the [draw.text] calls made on it, in order;
    an event is a call that leaves the program: a [print], an
    [epd.display(epd.getbuffer(image))] or a [time.sleep], the latter with
    its duration in milliseconds (1.0 s, 2.0 s and 0.05 s in the source). *)

Inductive font : Type := FONT_LARGE | FONT_MEDIUM | FONT_SMALL.

Record text_item : Type := mkText {
  xy        : Z * Z;
  text      : string;
  text_font : font;
  fill      : Z
}.

Record image : Type := mkImage {
  mode  : string;
  size  : Z * Z;
  color : Z;
  items : list text_item
}.

Definition draw_text (im : image) (at_xy : Z * Z) (t : string) (f : font)
    (ink : Z) : image :=
  mkImage (mode im) (size im) (color im) (items im ++ [mkText at_xy t f ink]).

Inductive event : Type :=
| Print (line : string)
| Display (im : image)
| Sleep (ms : Z).

(** [str(n)] of a Python int, as an f-string formats it. *)

Definition str (n : Z) : string := NilZero.string_of_int (Z.to_int n).

(** Truth value of a Python string: empty is false. *)

Definition truthy (m : string) : bool :=
  match m with
  | EmptyString => false
  | String _ _ => true
  end.

(** Characters that a literal of this file cannot spell: the line feed and
    the double quote of the sprites. *)

Definition LF : string := String "010"%char EmptyString.

Definition DQ : string := String "034"%char EmptyString.

(** A dict with string keys, in the order of its literal, and [d.get(k, v)]. *)

Fixpoint dict_find (d : list (string * string)) (k : string) : option string :=
  match d with
  | [] => None
  | (k', v) :: d' => if String.eqb k' k then Some v else dict_find d' k
  end.

Definition dict_get (d : list (string * string)) (k default : string) : string :=
  match dict_find d k with
  | Some v => v
  | None => default
  end.

(** The wall clock is read as floating point seconds by [time.time()]; the
    loops only ever compare an elapsed time with a constant, so the clock is
    kept abstract: [tick_elapsed now last] stands for
    [now - last > TICK_INTERVAL_SEC] and [debounce_elapsed now last] for
    [now - last > DEBOUNCE_TIME]. *)

Record Clock : Type := mkClock {
  time             : Type;
  tick_elapsed     : time -> time -> bool;
  debounce_elapsed : time -> time -> bool
}.

(** The variables of [main] that live across iterations of its loop, with
    [pet.last_tick] and the generator of the random module. *)

Record session (K : Clock) : Type := mkSession {
  s_pet               : pet;
  s_rng               : rng;
  s_last_tick         : time K;
  s_message           : string;
  s_last_button_press : time K;
  s_needs_draw        : bool
}.

Arguments mkSession {K}.
Arguments s_pet {K}.
Arguments s_rng {K}.
Arguments s_last_tick {K}.
Arguments s_message {K}.
Arguments s_last_button_press {K}.
Arguments s_needs_draw {K}.

(** ** tamagotchi.py *)

Module Tamagotchi.

Definition __init__ : pet := mkPet 50 50 0 false "neutral".

Definition update_state (p : pet) : pet :=
  if is_asleep p then set_state p "asleep"
  else if (hunger p >? 85) || (happiness p <? 15) then set_state p "dead"
  else if hunger p >? 70 then set_state p "hungry"
  else if happiness p <? 30 then set_state p "sad"
  else if happiness p >? 80 then set_state p "happy"
  else set_state p "neutral".

Definition update_tick (p : pet) (g : rng) : pet * rng :=
  if String.eqb (state p) "dead" then (p, g) else
  let p := set_age p (age p + 1) in
  let '(p, g) :=
    if is_asleep p then
      let '(r, g) := randint 1 6 g in
      if r =? 1 then
        let '(d, g) := randint 0 1 g in
        let p := set_hunger p (hunger p + d) in
        let p := set_happiness p (Z.min 100 (happiness p + 1)) in
        (p, g)
      else (p, g)
    else
      let '(r, g) := randint 1 2 g in
      if r =? 1 then
        let '(d, g) := randint 1 2 g in
        let p := set_hunger p (hunger p + d) in
        let '(d, g) := randint 1 2 g in
        let p := set_happiness p (happiness p - d) in
        (p, g)
      else (p, g) in
  let p := set_hunger p (Z.max 0 (Z.min 100 (hunger p))) in
  let p := set_happiness p (Z.max 0 (Z.min 100 (happiness p))) in
  (update_state p, g).

Definition feed (p : pet) : bool * pet :=
  if is_asleep p || String.eqb (state p) "dead" then (false, p) else
  let p := set_hunger p (hunger p - 25) in
  let p := set_happiness p (happiness p + 5) in
  let p := set_hunger p (Z.max 0 (Z.min 100 (hunger p))) in
  let p := set_happiness p (Z.max 0 (Z.min 100 (happiness p))) in
  (true, update_state p).

Definition play (p : pet) : bool * pet :=
  if is_asleep p || String.eqb (state p) "dead" then (false, p) else
  let p := set_happiness p (happiness p + 20) in
  let p := set_hunger p (hunger p + 10) in
  let p := set_hunger p (Z.max 0 (Z.min 100 (hunger p))) in
  let p := set_happiness p (Z.max 0 (Z.min 100 (happiness p))) in
  (true, update_state p).

Definition toggle_sleep (p : pet) : bool * pet :=
  if String.eqb (state p) "dead" then (false, p) else
  let p := set_is_asleep p (negb (is_asleep p)) in
  (true, update_state p).

Definition KEY_1_PIN : Z := 5.
Definition KEY_2_PIN : Z := 6.
Definition KEY_3_PIN : Z := 13.
Definition KEY_4_PIN : Z := 19.

Definition EPD_WIDTH : Z := 122.
Definition EPD_HEIGHT : Z := 250.

Definition SPRITES : list (string * string) :=
  [ ("neutral", LF ++ " (._.) " ++ LF ++ " ( (" ++ DQ ++ ") " ++ LF ++ " /    \ " ++ LF);
    ("happy",   LF ++ " (^_^) " ++ LF ++ " ( (" ++ DQ ++ ") " ++ LF ++ " /    \ " ++ LF);
    ("sad",     LF ++ " (T_T) " ++ LF ++ " ( (" ++ DQ ++ ") " ++ LF ++ " /    \ " ++ LF);
    ("hungry",  LF ++ " (>_<) " ++ LF ++ " ( (" ++ DQ ++ ") " ++ LF ++ " /    \ " ++ LF);
    ("asleep",  LF ++ " (z_z) " ++ LF ++ " ( (" ++ DQ ++ ") " ++ LF ++ " /    \ " ++ LF);
    ("dead",    LF ++ " (x_x) " ++ LF ++ " ( (" ++ DQ ++ ") " ++ LF ++ " /    \ " ++ LF) ].

(** [SPRITES.get(self.state, SPRITES["neutral"])]; the subscript cannot
    raise, the key being in the literal. *)

Definition get_sprite (p : pet) : string :=
  dict_get SPRITES (state p) (dict_get SPRITES "neutral" EmptyString).

Definition draw_display (p : pet) (message : string) : image :=
  let im := mkImage "1" (EPD_HEIGHT, EPD_WIDTH) 255 [] in
  let sprite := get_sprite p in
  let im := draw_text im (30, 20) sprite FONT_LARGE 0 in
  let im :=
    if negb (String.eqb (state p) "dead") then
      let im := draw_text im (10, 130)
                  ("Hunger: " ++ str (hunger p) ++ "/100") FONT_MEDIUM 0 in
      let im := draw_text im (10, 150)
                  ("Happy:  " ++ str (happiness p) ++ "/100") FONT_MEDIUM 0 in
      draw_text im (10, 170) ("Age: " ++ str (age p)) FONT_MEDIUM 0
    else
      draw_text im (30, 140) "GAME OVER" FONT_LARGE 0 in
  let im := draw_text im (160, 20) "Feed (1)" FONT_SMALL 0 in
  let im := draw_text im (160, 40) "Play (2)" FONT_SMALL 0 in
  let im := draw_text im (160, 60) "Sleep (3)" FONT_SMALL 0 in
  if truthy message then draw_text im (10, 200) message FONT_MEDIUM 0
  else im.

Definition LOW : Z := 0.

(** The body of the [while True] loop of [main], in its numbered steps.
    [now] is the [time.time()] read at the top of the iteration. *)

(** Step "check for game tick". *)

Definition tick_step {K : Clock} (now : time K) (s : session K) : session K :=
  if tick_elapsed K now (s_last_tick s) then
    let '(p, g) := update_tick (s_pet s) (s_rng s) in
    let message :=
      if negb (String.eqb (state p) "asleep") then "Time passes..."
      else s_message s in
    mkSession p g now message (s_last_button_press s) true
  else s.

(** Step "check for input (polling)"; [gpio] is [GPIO.input], and the
    boolean returned with the session is [action_taken]. *)

Definition input_step {K : Clock} (now : time K) (gpio : Z -> Z)
    (s : session K) : session K * bool :=
  if debounce_elapsed K now (s_last_button_press s) then
    if gpio KEY_1_PIN =? LOW then
      let '(ok, p) := feed (s_pet s) in
      let message := if ok then "Yum!" else s_message s in
      (mkSession p (s_rng s) (s_last_tick s) message now (s_needs_draw s), ok)
    else if gpio KEY_2_PIN =? LOW then
      let '(ok, p) := play (s_pet s) in
      let message := if ok then "Whee!" else s_message s in
      (mkSession p (s_rng s) (s_last_tick s) message now (s_needs_draw s), ok)
    else if gpio KEY_3_PIN =? LOW then
      let '(ok, p) := toggle_sleep (s_pet s) in
      let message :=
        if ok then (if is_asleep p then "Zzz..." else "I'm awake!")
        else s_message s in
      (mkSession p (s_rng s) (s_last_tick s) message now (s_needs_draw s), ok)
    else (s, false)
  else (s, false).

(** [if action_taken: needs_draw = True]. *)

Definition mark_draw {K : Clock} (action_taken : bool) (s : session K) :
    session K :=
  if action_taken then
    mkSession (s_pet s) (s_rng s) (s_last_tick s) (s_message s)
              (s_last_button_press s) true
  else s.

Definition drawing_line (p : pet) (message : string) : string :=
  "Drawing... (State: " ++ state p ++ ", Msg: " ++ message ++ ")".

(** Step "update display", with the [time.sleep(0.05)] that ends the
    iteration; the [continue] of the dead pet skips both. *)

Definition draw_step {K : Clock} (action_taken : bool) (s : session K) :
    session K * list event :=
  if s_needs_draw s then
    if String.eqb (state (s_pet s)) "dead" && negb action_taken then
      (s, [Sleep 1000])
    else
      let out :=
        [ Print (drawing_line (s_pet s) (s_message s));
          Display (draw_display (s_pet s) (s_message s));
          Print "...Draw complete." ] in
      let out :=
        if action_taken then
          (out ++ [Sleep 2000; Display (draw_display (s_pet s) EmptyString)])%list
        else out in
      (mkSession (s_pet s) (s_rng s) (s_last_tick s) EmptyString
                 (s_last_button_press s) false,
       (out ++ [Sleep 50])%list)
  else (s, [Sleep 50]).

Definition loop_body {K : Clock} (now : time K) (gpio : Z -> Z)
    (s : session K) : session K * list event :=
  let s := tick_step now s in
  let '(s, action_taken) := input_step now gpio s in
  let s := mark_draw action_taken s in
  draw_step action_taken s.

(** The session at the first iteration: [t0] is the clock read by
    [PiTamagotchi()], [t1] the one read for [last_button_press]. *)

Definition main_start {K : Clock} (t0 t1 : time K) (g : rng) : session K :=
  mkSession __init__ g t0 "Hello Traveler!" t1 true.

End Tamagotchi.

(** ** tam_sim.py *)

Module TamSim.

Definition __init__ : pet := mkPet 50 50 0 false "neutral".

Definition update_state (p : pet) : pet :=
  if is_asleep p then set_state p "asleep"
  else if (hunger p >? 85) || (happiness p <? 15) then set_state p "dead"
  else if hunger p >? 70 then set_state p "hungry"
  else if happiness p <? 30 then set_state p "sad"
  else if happiness p >? 80 then set_state p "happy"
  else set_state p "neutral".

Definition update_tick (p : pet) (g : rng) : pet * rng :=
  if String.eqb (state p) "dead" then (p, g) else
  let p := set_age p (age p + 1) in
  let '(p, g) :=
    if is_asleep p then
      let '(r, g) := randint 1 6 g in
      if r =? 1 then
        let '(d, g) := randint 0 1 g in
        let p := set_hunger p (hunger p + d) in
        let p := set_happiness p (Z.min 100 (happiness p + 1)) in
        (p, g)
      else (p, g)
    else
      let '(r, g) := randint 1 2 g in
      if r =? 1 then
        let '(d, g) := randint 1 2 g in
        let p := set_hunger p (hunger p + d) in
        let '(d, g) := randint 1 2 g in
        let p := set_happiness p (happiness p - d) in
        (p, g)
      else (p, g) in
  let p := set_hunger p (Z.max 0 (Z.min 100 (hunger p))) in
  let p := set_happiness p (Z.max 0 (Z.min 100 (happiness p))) in
  (update_state p, g).

Definition feed (p : pet) : bool * pet :=
  if is_asleep p || String.eqb (state p) "dead" then (false, p) else
  let p := set_hunger p (Z.max 0 (hunger p - 25)) in
  let p := set_happiness p (Z.min 100 (happiness p + 5)) in
  (true, update_state p).

Definition play (p : pet) : bool * pet :=
  if is_asleep p || String.eqb (state p) "dead" then (false, p) else
  let p := set_happiness p (Z.min 100 (happiness p + 20)) in
  let p := set_hunger p (Z.min 100 (hunger p + 10)) in
  (true, update_state p).

Definition toggle_sleep (p : pet) : bool * pet :=
  if String.eqb (state p) "dead" then (false, p) else
  let p := set_is_asleep p (negb (is_asleep p)) in
  (true, update_state p).

Definition KEY_1_PIN : Z := 5.
Definition KEY_2_PIN : Z := 6.
Definition KEY_3_PIN : Z := 13.
Definition KEY_4_PIN : Z := 19.

Definition EPD_WIDTH : Z := 122.
Definition EPD_HEIGHT : Z := 250.

Definition SPRITES : list (string * string) :=
  [ ("neutral", LF ++ " (._.) " ++ LF ++ " ( (" ++ DQ ++ ") " ++ LF ++ " /    \ " ++ LF);
    ("happy",   LF ++ " (^_^) " ++ LF ++ " ( (" ++ DQ ++ ") " ++ LF ++ " /    \ " ++ LF);
    ("sad",     LF ++ " (T_T) " ++ LF ++ " ( (" ++ DQ ++ ") " ++ LF ++ " /    \ " ++ LF);
    ("hungry",  LF ++ " (>_<) " ++ LF ++ " ( (" ++ DQ ++ ") " ++ LF ++ " /    \ " ++ LF);
    ("asleep",  LF ++ " (z_z) " ++ LF ++ " ( (" ++ DQ ++ ") " ++ LF ++ " /    \ " ++ LF);
    ("dead",    LF ++ " (x_x) " ++ LF ++ " ( (" ++ DQ ++ ") " ++ LF ++ " /    \ " ++ LF) ].

(** [SPRITES.get(self.state, SPRITES["neutral"])]; the subscript cannot
    raise, the key being in the literal. *)

Definition get_sprite (p : pet) : string :=
  dict_get SPRITES (state p) (dict_get SPRITES "neutral" EmptyString).

Definition draw_display (p : pet) (message : string) : image :=
  let im := mkImage "1" (EPD_HEIGHT, EPD_WIDTH) 255 [] in
  let sprite := get_sprite p in
  let im := draw_text im (30, 20) sprite FONT_LARGE 0 in
  let im :=
    if negb (String.eqb (state p) "dead") then
      let im := draw_text im (10, 130)
                  ("Hunger: " ++ str (hunger p) ++ "/100") FONT_MEDIUM 0 in
      let im := draw_text im (10, 150)
                  ("Happy:  " ++ str (happiness p) ++ "/100") FONT_MEDIUM 0 in
      draw_text im (10, 170) ("Age: " ++ str (age p)) FONT_MEDIUM 0
    else
      draw_text im (30, 140) "GAME OVER" FONT_LARGE 0 in
  let im := draw_text im (160, 20) "Feed (1)" FONT_SMALL 0 in
  let im := draw_text im (160, 40) "Play (2)" FONT_SMALL 0 in
  let im := draw_text im (160, 60) "Sleep (3)" FONT_SMALL 0 in
  if truthy message then draw_text im (10, 200) message FONT_MEDIUM 0
  else im.

(** [MockGPIO]: its levels, and [input] on the instance whose
    [_pressed_key] is [pressed]. *)

Definition LOW : Z := 0.
Definition HIGH : Z := 1.

Definition MockGPIO_input (pressed : option string) (pin : Z) : Z :=
  match pressed with
  | Some key =>
      if (pin =? KEY_1_PIN) && String.eqb key "1" then LOW
      else if (pin =? KEY_2_PIN) && String.eqb key "2" then LOW
      else if (pin =? KEY_3_PIN) && String.eqb key "3" then LOW
      else HIGH
  | None => HIGH
  end.

(** The body of the [while True] loop of [main], in its numbered steps.
    [now] is the [time.time()] read at the top of the iteration. *)

(** Step "check for game tick". *)

Definition tick_step {K : Clock} (now : time K) (s : session K) : session K :=
  if tick_elapsed K now (s_last_tick s) then
    let '(p, g) := update_tick (s_pet s) (s_rng s) in
    let message :=
      if negb (String.eqb (state p) "asleep") then "Time passes..."
      else s_message s in
    mkSession p g now message (s_last_button_press s) true
  else s.

(** Step "check for input (polling)"; [gpio] is [GPIO.input], and the
    boolean returned with the session is [action_taken]. *)

Definition input_step {K : Clock} (now : time K) (gpio : Z -> Z)
    (s : session K) : session K * bool :=
  if debounce_elapsed K now (s_last_button_press s) then
    if gpio KEY_1_PIN =? LOW then
      let '(ok, p) := feed (s_pet s) in
      let message := if ok then "Yum!" else s_message s in
      (mkSession p (s_rng s) (s_last_tick s) message now (s_needs_draw s), ok)
    else if gpio KEY_2_PIN =? LOW then
      let '(ok, p) := play (s_pet s) in
      let message := if ok then "Whee!" else s_message s in
      (mkSession p (s_rng s) (s_last_tick s) message now (s_needs_draw s), ok)
    else if gpio KEY_3_PIN =? LOW then
      let '(ok, p) := toggle_sleep (s_pet s) in
      let message :=
        if ok then (if is_asleep p then "Zzz..." else "I'm awake!")
        else s_message s in
      (mkSession p (s_rng s) (s_last_tick s) message now (s_needs_draw s), ok)
    else (s, false)
  else (s, false).

(** [if action_taken: needs_draw = True]. *)

Definition mark_draw {K : Clock} (action_taken : bool) (s : session K) :
    session K :=
  if action_taken then
    mkSession (s_pet s) (s_rng s) (s_last_tick s) (s_message s)
              (s_last_button_press s) true
  else s.

Definition drawing_line (p : pet) (message : string) : string :=
  "Drawing... (State: " ++ state p ++ ", Msg: " ++ message ++ ")".

(** Step "get simulated input". [typed] is the line [input] returns to
    [_get_sim_input]; the option returned with the session is
    [GPIO._pressed_key] as the later steps see it. The attribute is assigned
    here and cleared at step 4 in every iteration of the simulation, so it
    carries nothing from one iteration to the next. *)

Definition sim_input_step {K : Clock} (now : time K) (typed : string)
    (s : session K) : session K * option string * list event :=
  if String.eqb typed "t" then
    let '(p, g) := update_tick (s_pet s) (s_rng s) in
    (mkSession p g now "Tick!" (s_last_button_press s) true, None,
     [Print "[SIM] Forcing game tick..."])
  else (s, Some typed, []).

(** Step "update display" and the closing [time.sleep(0.05)]. *)

Definition draw_step {K : Clock} (IS_SIMULATION action_taken : bool)
    (s : session K) : session K * list event :=
  let idle := if negb IS_SIMULATION then [Sleep 50] else [] in
  if s_needs_draw s then
    let out :=
      [ Print (drawing_line (s_pet s) (s_message s));
        Display (draw_display (s_pet s) (s_message s)) ] in
    let out :=
      if action_taken && negb IS_SIMULATION then
        (out ++ [Sleep 2000; Display (draw_display (s_pet s) EmptyString)])%list
      else out in
    (mkSession (s_pet s) (s_rng s) (s_last_tick s) EmptyString
               (s_last_button_press s) false,
     (out ++ idle)%list)
  else (s, idle).

(** One iteration. In hardware mode [GPIO] is the real module and [pins]
    gives the levels it reads; in simulation mode it is the [MockGPIO]
    instance. *)

Definition loop_body {K : Clock} (IS_SIMULATION : bool) (now : time K)
    (typed : string) (pins : Z -> Z) (s : session K) :
    session K * list event :=
  let '(s, pressed, out1) :=
    if IS_SIMULATION then sim_input_step now typed s else (s, None, []) in
  let s := tick_step now s in
  let gpio := if IS_SIMULATION then MockGPIO_input pressed else pins in
  let '(s, action_taken) := input_step now gpio s in
  let s := mark_draw action_taken s in
  let '(s, out5) := draw_step IS_SIMULATION action_taken s in
  (s, (out1 ++ out5)%list).

Definition main_start {K : Clock} (t0 t1 : time K) (g : rng) : session K :=
  mkSession __init__ g t0 "Hello!" t1 true.

End TamSim.

(** ** The class interface and its two implementations *)

Record PetClass : Type := mkClass {
  new           : pet;
  m_update_tick : pet -> rng -> pet * rng;
  m_feed        : pet -> bool * pet;
  m_play        : pet -> bool * pet;
  m_toggle_sleep : pet -> bool * pet
}.

Definition hw_class : PetClass :=
  mkClass Tamagotchi.__init__ Tamagotchi.update_tick Tamagotchi.feed
          Tamagotchi.play Tamagotchi.toggle_sleep.

Definition sim_class : PetClass :=
  mkClass TamSim.__init__ TamSim.update_tick TamSim.feed
          TamSim.play TamSim.toggle_sleep.

(** A call made on the pet by the main loop; the world is the pet together
    with the generator, and the boolean a button handler returns is dropped
    here (the loop only uses it to choose a message). *)

Inductive call : Type := Tick | Feed | Play | ToggleSleep.

Definition exec (C : PetClass) (c : call) (w : pet * rng) : pet * rng :=
  match c with
  | Tick => m_update_tick C (fst w) (snd w)
  | Feed => (snd (m_feed C (fst w)), snd w)
  | Play => (snd (m_play C (fst w)), snd w)
  | ToggleSleep => (snd (m_toggle_sleep C (fst w)), snd w)
  end.

Fixpoint run (C : PetClass) (cs : list call) (w : pet * rng) : pet * rng :=
  match cs with
  | [] => w
  | c :: cs' => run C cs' (exec C c w)
  end.

(** Reachable worlds: a freshly constructed pet with any generator, closed
    under the four calls. *)

Inductive reachable (C : PetClass) : pet * rng -> Prop :=
| reach_new : forall g, reachable C (new C, g)
| reach_call : forall c w, reachable C w -> reachable C (exec C c w).

(** ** Predicates used by the statements *)

Definition in_range (p : pet) : Prop :=
  0 <= hunger p <= 100 /\ 0 <= happiness p <= 100.

Definition clamp (v : Z) : Z := Z.max 0 (Z.min 100 v).

(** The derivation rule of the specification, first match wins:
    asleep; else hunger > 85 or happiness < 15, dead; else hunger > 70,
    hungry; else happiness < 30, sad; else happiness > 80, happy; else
    neutral. *)

Definition derive_state (h j : Z) (asleep : bool) : string :=
  if asleep then "asleep"
  else if ((h >? 85) || (j <? 15))%bool then "dead"
  else if h >? 70 then "hungry"
  else if j <? 30 then "sad"
  else if j >? 80 then "happy"
  else "neutral".

Definition coherent (p : pet) : Prop :=
  state p = derive_state (hunger p) (happiness p) (is_asleep p).

(** The invariant of the class: stats in range and the state up to date. *)

Definition sound (p : pet) : Prop := in_range p /\ coherent p.

(** The sleep flag forces the state. *)

Definition sleep_rules (p : pet) : Prop :=
  is_asleep p = true -> state p = "asleep".

(** What the specification says a successful [feed], [play] and
    [toggle_sleep] return and leave behind, [p] being the pet before the call
    and [r] the returned flag with the pet after it. *)

Definition feed_post (p : pet) (r : bool * pet) : Prop :=
  fst r = true /\
  hunger (snd r) = Z.max 0 (hunger p - 25) /\
  happiness (snd r) = Z.min 100 (happiness p + 5) /\
  age (snd r) = age p /\
  is_asleep (snd r) = is_asleep p /\
  coherent (snd r).

Definition play_post (p : pet) (r : bool * pet) : Prop :=
  fst r = true /\
  happiness (snd r) = Z.min 100 (happiness p + 20) /\
  hunger (snd r) = Z.min 100 (hunger p + 10) /\
  age (snd r) = age p /\
  is_asleep (snd r) = is_asleep p /\
  coherent (snd r).

Definition toggle_post (p : pet) (r : bool * pet) : Prop :=
  fst r = true /\
  is_asleep (snd r) = negb (is_asleep p) /\
  hunger (snd r) = hunger p /\
  happiness (snd r) = happiness p /\
  age (snd r) = age p /\
  coherent (snd r).

(** Whether a tick took its decay branch: a live tick always makes the first
    [randint] call and makes further ones only inside the branch. *)

Definition decays (p : pet) (g : rng) : bool :=
  (S (cursor g) <? cursor (snd (Tamagotchi.update_tick p g)))%nat.

(** The [n] generators that differ in the raw cell read first: the equally
    likely outcomes of a first [randint] call over a range of [n] values. *)

Definition first_cells (n : nat) : list rng :=
  map (fun k => rng_of [Z.of_nat k]) (seq 0 n).

(** ** The loops over many iterations

    An iteration of tamagotchi.py is driven by the clock reading and the
    levels of the pins; one of tam_sim.py also by the line typed at the
    prompt. The events of the iterations are concatenated. *)

Fixpoint hw_run {K : Clock} (ins : list (time K * (Z -> Z)))
    (s : session K) : session K * list event :=
  match ins with
  | [] => (s, [])
  | (now, gpio) :: ins' =>
      let '(s1, out1) := Tamagotchi.loop_body now gpio s in
      let '(s2, out2) := hw_run ins' s1 in
      (s2, (out1 ++ out2)%list)
  end.

Fixpoint sim_run {K : Clock} (IS_SIMULATION : bool)
    (ins : list (time K * string * (Z -> Z)))
    (s : session K) : session K * list event :=
  match ins with
  | [] => (s, [])
  | (now, typed, pins) :: ins' =>
      let '(s1, out1) := TamSim.loop_body IS_SIMULATION now typed pins s in
      let '(s2, out2) := sim_run IS_SIMULATION ins' s1 in
      (s2, (out1 ++ out2)%list)
  end.

Definition is_display (e : event) : bool :=
  match e with
  | Display _ => true
  | _ => false
  end.

Definition is_sleep (e : event) : bool :=
  match e with
  | Sleep _ => true
  | _ => false
  end.

(** Nothing is owed to the display: no redraw is pending and the one-time
    message has been cleared. *)

Definition settled {K : Clock} (s : session K) : Prop :=
  s_needs_draw s = false /\ s_message s = EmptyString.

(** No pin reads LOW: no button is held. *)

Definition released (gpio : Z -> Z) : Prop :=
  gpio Tamagotchi.KEY_1_PIN <> Tamagotchi.LOW /\
  gpio Tamagotchi.KEY_2_PIN <> Tamagotchi.LOW /\
  gpio Tamagotchi.KEY_3_PIN <> Tamagotchi.LOW.

Definition count_ticks (cs : list call) : Z :=
  Z.of_nat (length (filter (fun c => match c with Tick => true | _ => false end) cs)).

Definition lethal (p : pet) : Prop := hunger p > 85 \/ happiness p < 15.

Definition the_six : list string :=
  ["neutral"; "happy"; "sad"; "hungry"; "asleep"; "dead"].

(** A clock that counts whole milliseconds, with the constants of
    tamagotchi.py: a tick every 10 s and a debounce time of 0.2 s. *)

Definition ms_clock : Clock :=
  mkClock Z (fun now last => now - last >? 10000)
            (fun now last => now - last >? 200).

(** Pin levels with exactly the listed pins held down. *)

Definition held (pins : list Z) : Z -> Z :=
  fun pin => if existsb (Z.eqb pin) pins then 0 else 1.

(** Case analysis on the test [self.state == "dead"]. *)

Ltac case_dead p :=
  let E := fresh "Edead" in
  destruct (String.eqb (state p) "dead") eqn:E;
  [apply String.eqb_eq in E | apply String.eqb_neq in E].

(** * Properties *)

(** ** The generator *)

Lemma randint_range (a b : Z) (g : rng) :
  a <= b -> a <= fst (randint a b g) <= b.
Proof.
  intros Hab. unfold randint. cbn [fst].
  pose proof (Z.mod_pos_bound (tape g (cursor g)) (b - a + 1)). lia.
Qed.

(** Every value of the range is drawn from exactly one residue of the raw
    cell, so equally likely cells give equally likely values. *)

Lemma randint_residue (a b v : Z) (g : rng) :
  a <= b ->
  fst (randint a b g) = v <-> tape g (cursor g) mod (b - a + 1) = v - a.
Proof. intros _. unfold randint. cbn [fst]. lia. Qed.

Lemma randint_onto (a b v : Z) :
  a <= v <= b -> fst (randint a b (rng_of [v - a])) = v.
Proof.
  intros Hv. unfold randint, rng_of. cbn.
  rewrite Z.mod_small; lia.
Qed.

(** ** update_state *)

Lemma dead_eqb (p : pet) :
  String.eqb (state p) "dead" = true <-> state p = "dead".
Proof. apply String.eqb_eq. Qed.

Lemma dead_neqb (p : pet) :
  String.eqb (state p) "dead" = false <-> state p <> "dead".
Proof. apply String.eqb_neq. Qed.

Lemma update_state_derive (p : pet) :
  Tamagotchi.update_state p =
  set_state p (derive_state (hunger p) (happiness p) (is_asleep p)).
Proof.
  unfold Tamagotchi.update_state, derive_state.
  destruct (is_asleep p); [reflexivity|].
  destruct ((hunger p >? 85) || (happiness p <? 15))%bool; [reflexivity|].
  destruct (hunger p >? 70); [reflexivity|].
  destruct (happiness p <? 30); [reflexivity|].
  destruct (happiness p >? 80); reflexivity.
Qed.

Lemma update_state_fields (p : pet) :
  let q := Tamagotchi.update_state p in
  hunger q = hunger p /\ happiness q = happiness p /\ age q = age p /\
  is_asleep q = is_asleep p /\
  state q = derive_state (hunger p) (happiness p) (is_asleep p).
Proof. cbv zeta. rewrite update_state_derive. cbn. tauto. Qed.

Lemma update_state_coherent (p : pet) : coherent (Tamagotchi.update_state p).
Proof.
  unfold coherent. destruct (update_state_fields p) as (-> & -> & _ & -> & ->).
  reflexivity.
Qed.

Lemma coherent_sleep_rules (p : pet) : coherent p -> sleep_rules p.
Proof. unfold coherent, sleep_rules. intros -> ->. reflexivity. Qed.

(** ** One call at a time

    Each method either returns at its guard, leaving the pet untouched, or
    runs to its final [update_state]. *)

Lemma update_tick_same :
  forall p g, TamSim.update_tick p g = Tamagotchi.update_tick p g.
Proof. reflexivity. Qed.

Lemma toggle_sleep_same :
  forall p, TamSim.toggle_sleep p = Tamagotchi.toggle_sleep p.
Proof. reflexivity. Qed.

Lemma update_tick_dead (p : pet) (g : rng) :
  state p = "dead" -> Tamagotchi.update_tick p g = (p, g).
Proof.
  intros H. unfold Tamagotchi.update_tick.
  apply dead_eqb in H. rewrite H. reflexivity.
Qed.

(** The live tick written out on its draws. *)

Lemma update_tick_live (p : pet) (g : rng) :
  state p <> "dead" ->
  Tamagotchi.update_tick p g =
  if is_asleep p then
    if draw 1 6 0 g =? 1 then
      (Tamagotchi.update_state
         (mkPet (clamp (hunger p + draw 0 1 1 g))
                (clamp (Z.min 100 (happiness p + 1)))
                (age p + 1) true (state p)),
       advance 2 g)
    else
      (Tamagotchi.update_state
         (mkPet (clamp (hunger p)) (clamp (happiness p))
                (age p + 1) true (state p)),
       advance 1 g)
  else
    if draw 1 2 0 g =? 1 then
      (Tamagotchi.update_state
         (mkPet (clamp (hunger p + draw 1 2 1 g))
                (clamp (happiness p - draw 1 2 2 g))
                (age p + 1) false (state p)),
       advance 3 g)
    else
      (Tamagotchi.update_state
         (mkPet (clamp (hunger p)) (clamp (happiness p))
                (age p + 1) false (state p)),
       advance 1 g).
Proof.
  intros H. apply dead_neqb in H.
  unfold Tamagotchi.update_tick. rewrite H.
  unfold draw, advance, randint, clamp, set_age, set_hunger, set_happiness.
  cbn [fst snd tape cursor Nat.add hunger happiness age is_asleep state].
  destruct (is_asleep p).
  - destruct (1 + tape g (cursor g) mod (6 - 1 + 1) =? 1); reflexivity.
  - destruct (1 + tape g (cursor g) mod (2 - 1 + 1) =? 1); reflexivity.
Qed.

Lemma guard_true (p : pet) :
  (is_asleep p || String.eqb (state p) "dead")%bool = true <->
  is_asleep p = true \/ state p = "dead".
Proof. rewrite orb_true_iff, dead_eqb. reflexivity. Qed.

Lemma guard_false (p : pet) :
  (is_asleep p || String.eqb (state p) "dead")%bool = false <->
  is_asleep p = false /\ state p <> "dead".
Proof. rewrite orb_false_iff, dead_neqb. reflexivity. Qed.

Lemma hw_feed_guarded (p : pet) :
  is_asleep p = true \/ state p = "dead" -> Tamagotchi.feed p = (false, p).
Proof.
  intros H. apply guard_true in H. unfold Tamagotchi.feed. rewrite H.
  reflexivity.
Qed.

Lemma hw_feed_live (p : pet) :
  is_asleep p = false -> state p <> "dead" ->
  Tamagotchi.feed p =
  (true, Tamagotchi.update_state
           (mkPet (clamp (hunger p - 25)) (clamp (happiness p + 5))
                  (age p) false (state p))).
Proof.
  intros Ha Hd. unfold Tamagotchi.feed.
  rewrite (proj2 (guard_false p) (conj Ha Hd)).
  unfold set_hunger, set_happiness, clamp. cbn [hunger happiness age is_asleep state].
  rewrite Ha. reflexivity.
Qed.

Lemma hw_play_guarded (p : pet) :
  is_asleep p = true \/ state p = "dead" -> Tamagotchi.play p = (false, p).
Proof.
  intros H. apply guard_true in H. unfold Tamagotchi.play. rewrite H.
  reflexivity.
Qed.

Lemma hw_play_live (p : pet) :
  is_asleep p = false -> state p <> "dead" ->
  Tamagotchi.play p =
  (true, Tamagotchi.update_state
           (mkPet (clamp (hunger p + 10)) (clamp (happiness p + 20))
                  (age p) false (state p))).
Proof.
  intros Ha Hd. unfold Tamagotchi.play.
  rewrite (proj2 (guard_false p) (conj Ha Hd)).
  unfold set_hunger, set_happiness, clamp. cbn [hunger happiness age is_asleep state].
  rewrite Ha. reflexivity.
Qed.

Lemma sim_feed_guarded (p : pet) :
  is_asleep p = true \/ state p = "dead" -> TamSim.feed p = (false, p).
Proof.
  intros H. apply guard_true in H. unfold TamSim.feed. rewrite H.
  reflexivity.
Qed.

Lemma sim_feed_live (p : pet) :
  is_asleep p = false -> state p <> "dead" ->
  TamSim.feed p =
  (true, Tamagotchi.update_state
           (mkPet (Z.max 0 (hunger p - 25)) (Z.min 100 (happiness p + 5))
                  (age p) false (state p))).
Proof.
  intros Ha Hd. unfold TamSim.feed.
  rewrite (proj2 (guard_false p) (conj Ha Hd)).
  unfold set_hunger, set_happiness. cbn [hunger happiness age is_asleep state].
  rewrite Ha. reflexivity.
Qed.

Lemma sim_play_guarded (p : pet) :
  is_asleep p = true \/ state p = "dead" -> TamSim.play p = (false, p).
Proof.
  intros H. apply guard_true in H. unfold TamSim.play. rewrite H.
  reflexivity.
Qed.

Lemma sim_play_live (p : pet) :
  is_asleep p = false -> state p <> "dead" ->
  TamSim.play p =
  (true, Tamagotchi.update_state
           (mkPet (Z.min 100 (hunger p + 10)) (Z.min 100 (happiness p + 20))
                  (age p) false (state p))).
Proof.
  intros Ha Hd. unfold TamSim.play.
  rewrite (proj2 (guard_false p) (conj Ha Hd)).
  unfold set_hunger, set_happiness. cbn [hunger happiness age is_asleep state].
  rewrite Ha. reflexivity.
Qed.

Lemma toggle_sleep_dead (p : pet) :
  state p = "dead" -> Tamagotchi.toggle_sleep p = (false, p).
Proof.
  intros H. apply dead_eqb in H. unfold Tamagotchi.toggle_sleep.
  rewrite H. reflexivity.
Qed.

Lemma toggle_sleep_live (p : pet) :
  state p <> "dead" ->
  Tamagotchi.toggle_sleep p =
  (true, Tamagotchi.update_state
           (mkPet (hunger p) (happiness p) (age p) (negb (is_asleep p))
                  (state p))).
Proof.
  intros H. apply dead_neqb in H. unfold Tamagotchi.toggle_sleep.
  rewrite H. reflexivity.
Qed.

(** The two ways of writing the clamp in [feed] and [play] agree on stats
    that are in range. *)

Lemma clamp_range (v : Z) : 0 <= clamp v <= 100.
Proof. unfold clamp. lia. Qed.

Lemma clamp_feed (h j : Z) :
  h <= 100 -> 0 <= j ->
  clamp (h - 25) = Z.max 0 (h - 25) /\ clamp (j + 5) = Z.min 100 (j + 5).
Proof. unfold clamp. lia. Qed.

Lemma clamp_play (h j : Z) :
  0 <= h -> 0 <= j ->
  clamp (h + 10) = Z.min 100 (h + 10) /\ clamp (j + 20) = Z.min 100 (j + 20).
Proof. unfold clamp. lia. Qed.

Lemma feed_same (p : pet) :
  in_range p -> TamSim.feed p = Tamagotchi.feed p.
Proof.
  intros [Hh Hj].
  destruct (is_asleep p) eqn:Ha.
  - rewrite sim_feed_guarded, hw_feed_guarded; auto.
  - case_dead p.
    + rewrite sim_feed_guarded, hw_feed_guarded; auto.
    + rewrite sim_feed_live, hw_feed_live by assumption.
      destruct (clamp_feed (hunger p) (happiness p)) as [-> ->]; [lia..|].
      reflexivity.
Qed.

Lemma play_same (p : pet) :
  in_range p -> TamSim.play p = Tamagotchi.play p.
Proof.
  intros [Hh Hj].
  destruct (is_asleep p) eqn:Ha.
  - rewrite sim_play_guarded, hw_play_guarded; auto.
  - case_dead p.
    + rewrite sim_play_guarded, hw_play_guarded; auto.
    + rewrite sim_play_live, hw_play_live by assumption.
      destruct (clamp_play (hunger p) (happiness p)) as [-> ->]; [lia..|].
      reflexivity.
Qed.

(** ** What every call preserves *)

Lemma update_state_in_range (h j a : Z) (s : bool) (st : string) :
  0 <= h <= 100 -> 0 <= j <= 100 ->
  in_range (Tamagotchi.update_state (mkPet h j a s st)).
Proof.
  intros Hh Hj. unfold in_range.
  destruct (update_state_fields (mkPet h j a s st)) as (-> & -> & _).
  cbn. tauto.
Qed.

Lemma exec_hw_in_range (c : call) (w : pet * rng) :
  in_range (fst w) -> in_range (fst (exec hw_class c w)).
Proof.
  destruct w as [p g]. cbn [fst]. intros Hp.
  destruct c; cbn [exec hw_class m_update_tick m_feed m_play m_toggle_sleep
                   fst snd].
  - case_dead p.
    + rewrite update_tick_dead by assumption. exact Hp.
    + rewrite update_tick_live by assumption.
      destruct (is_asleep p);
        match goal with |- context [if ?b then _ else _] => destruct b end;
        cbn [fst]; apply update_state_in_range; apply clamp_range.
  - destruct (is_asleep p) eqn:Ha; [|case_dead p].
    1,2: rewrite hw_feed_guarded by auto; exact Hp.
    rewrite hw_feed_live by assumption.
    apply update_state_in_range; apply clamp_range.
  - destruct (is_asleep p) eqn:Ha; [|case_dead p].
    1,2: rewrite hw_play_guarded by auto; exact Hp.
    rewrite hw_play_live by assumption.
    apply update_state_in_range; apply clamp_range.
  - case_dead p.
    + rewrite toggle_sleep_dead by assumption. exact Hp.
    + rewrite toggle_sleep_live by assumption.
      apply update_state_in_range; apply Hp.
Qed.

(** A call either returns at its guard or ends in [update_state]. *)

Lemma exec_hw_recomputes (c : call) (v : pet * rng) :
  fst (exec hw_class c v) = fst v \/ coherent (fst (exec hw_class c v)).
Proof.
  destruct v as [p g].
  destruct c; cbn [exec hw_class m_update_tick m_feed m_play m_toggle_sleep
                   fst snd].
  - case_dead p.
    + left. rewrite update_tick_dead by assumption. reflexivity.
    + right. rewrite update_tick_live by assumption.
      destruct (is_asleep p);
        match goal with |- context [if ?b then _ else _] => destruct b end;
        apply update_state_coherent.
  - destruct (is_asleep p) eqn:Ha; [|case_dead p].
    1,2: left; rewrite hw_feed_guarded by auto; reflexivity.
    right. rewrite hw_feed_live by assumption. apply update_state_coherent.
  - destruct (is_asleep p) eqn:Ha; [|case_dead p].
    1,2: left; rewrite hw_play_guarded by auto; reflexivity.
    right. rewrite hw_play_live by assumption. apply update_state_coherent.
  - case_dead p.
    + left. rewrite toggle_sleep_dead by assumption. reflexivity.
    + right. rewrite toggle_sleep_live by assumption.
      apply update_state_coherent.
Qed.

Lemma exec_hw_coherent (c : call) (w : pet * rng) :
  coherent (fst w) -> coherent (fst (exec hw_class c w)).
Proof.
  intros Hw. destruct (exec_hw_recomputes c w) as [-> | H]; assumption.
Qed.

Lemma exec_hw_sound (c : call) (w : pet * rng) :
  sound (fst w) -> sound (fst (exec hw_class c w)).
Proof.
  intros [Hr Hc]. split; [apply exec_hw_in_range | apply exec_hw_coherent];
    assumption.
Qed.

Lemma exec_same (c : call) (w : pet * rng) :
  in_range (fst w) -> exec sim_class c w = exec hw_class c w.
Proof.
  intros Hw.
  destruct c; cbn [exec hw_class sim_class m_update_tick m_feed m_play
                   m_toggle_sleep].
  - reflexivity.
  - rewrite feed_same by assumption. reflexivity.
  - rewrite play_same by assumption. reflexivity.
  - reflexivity.
Qed.

Lemma exec_sim_sound (c : call) (w : pet * rng) :
  sound (fst w) -> sound (fst (exec sim_class c w)).
Proof.
  intros Hw. rewrite exec_same by apply Hw. apply exec_hw_sound, Hw.
Qed.

Lemma new_sound : sound Tamagotchi.__init__.
Proof. split; [unfold in_range; cbn; lia | reflexivity]. Qed.

Lemma reachable_hw_sound (w : pet * rng) :
  reachable hw_class w -> sound (fst w).
Proof.
  induction 1 as [g | c w _ IH].
  - exact new_sound.
  - apply exec_hw_sound, IH.
Qed.

Lemma reachable_sim_sound (w : pet * rng) :
  reachable sim_class w -> sound (fst w).
Proof.
  induction 1 as [g | c w _ IH].
  - exact new_sound.
  - apply exec_sim_sound, IH.
Qed.

Lemma run_same (cs : list call) (w : pet * rng) :
  in_range (fst w) -> run sim_class cs w = run hw_class cs w.
Proof.
  revert w. induction cs as [| c cs IH]; intros w Hw; cbn [run].
  - reflexivity.
  - rewrite exec_same by exact Hw. apply IH, exec_hw_in_range, Hw.
Qed.

Lemma reachable_run (C : PetClass) (cs : list call) (w : pet * rng) :
  reachable C w -> reachable C (run C cs w).
Proof.
  revert w. induction cs as [| c cs IH]; intros w Hw; cbn [run].
  - exact Hw.
  - apply IH, reach_call, Hw.
Qed.

Lemma reachable_from_new (C : PetClass) (cs : list call) (g : rng) :
  reachable C (run C cs (new C, g)).
Proof. apply reachable_run, reach_new. Qed.

(** C1. Starting from a new pet (hunger 50, happiness 50, age 0, awake,
    neutral) and making any sequence of update_tick, feed, play and
    toggle_sleep calls with any generator, hunger and happiness lie in
    [0, 100] after every call; this holds for the class of tamagotchi.py and
    for the class of tam_sim.py. *)
Theorem stats_stay_in_range (w : pet * rng) :
  reachable hw_class w \/ reachable sim_class w ->
  0 <= hunger (fst w) <= 100 /\ 0 <= happiness (fst w) <= 100.
Proof.
  intros [H | H].
  - apply (reachable_hw_sound w H).
  - apply (reachable_sim_sound w H).
Qed.

Lemma stats_stay_in_range_witness :
  let w := run hw_class [Play; Play; Play; Play; Tick]
               (new hw_class, rng_of [0; 1; 1]) in
  reachable hw_class w /\
  0 <= hunger (fst w) <= 100 /\ 0 <= happiness (fst w) <= 100.
Proof.
  cbv zeta. split.
  - apply reachable_from_new.
  - apply stats_stay_in_range. left. apply reachable_from_new.
Defined.

(** ** Death *)

Lemma exec_hw_dead (c : call) (p : pet) (g : rng) :
  state p = "dead" -> exec hw_class c (p, g) = (p, g).
Proof.
  intros H.
  destruct c; cbn [exec hw_class m_update_tick m_feed m_play m_toggle_sleep
                   fst snd].
  - apply update_tick_dead, H.
  - rewrite hw_feed_guarded by auto. reflexivity.
  - rewrite hw_play_guarded by auto. reflexivity.
  - rewrite toggle_sleep_dead by assumption. reflexivity.
Qed.

Lemma exec_sim_dead (c : call) (p : pet) (g : rng) :
  state p = "dead" -> exec sim_class c (p, g) = (p, g).
Proof.
  intros H.
  destruct c; cbn [exec sim_class m_update_tick m_feed m_play m_toggle_sleep
                   fst snd].
  - rewrite update_tick_same. apply update_tick_dead, H.
  - rewrite sim_feed_guarded by auto. reflexivity.
  - rewrite sim_play_guarded by auto. reflexivity.
  - rewrite toggle_sleep_same, toggle_sleep_dead by assumption. reflexivity.
Qed.

Lemma run_dead (C : PetClass) (cs : list call) (p : pet) (g : rng) :
  (forall c, exec C c (p, g) = (p, g)) -> run C cs (p, g) = (p, g).
Proof.
  intros H. induction cs as [| c cs IH]; cbn [run].
  - reflexivity.
  - rewrite H. exact IH.
Qed.

(** C2. Dead is absorbing: on a pet whose state is "dead", any sequence of
    update_tick, feed, play and toggle_sleep calls, with any generator,
    leaves hunger, happiness, age, is_asleep and state (and the generator)
    as they were, in both files; in particular n calls of update_tick equal
    no call at all. *)
Theorem dead_is_absorbing (p : pet) (g : rng) :
  state p = "dead" ->
  (forall cs, run hw_class cs (p, g) = (p, g)) /\
  (forall cs, run sim_class cs (p, g) = (p, g)) /\
  (forall n, run hw_class (repeat Tick n) (p, g) = run hw_class [] (p, g)) /\
  (forall n, run sim_class (repeat Tick n) (p, g) = run sim_class [] (p, g)).
Proof.
  intros H.
  assert (Hhw : forall cs, run hw_class cs (p, g) = (p, g)).
  { intros cs. apply run_dead. intros c. apply exec_hw_dead, H. }
  assert (Hsim : forall cs, run sim_class cs (p, g) = (p, g)).
  { intros cs. apply run_dead. intros c. apply exec_sim_dead, H. }
  repeat split; intros; rewrite ?Hhw, ?Hsim; reflexivity.
Qed.

Lemma dead_is_absorbing_witness :
  let p := mkPet 90 50 7 false "dead" in
  let g := rng_of [0; 1; 1] in
  state p = "dead" /\
  run hw_class [Tick; Feed; Play; ToggleSleep; Tick] (p, g) = (p, g).
Proof.
  cbv zeta. split.
  - reflexivity.
  - apply (dead_is_absorbing (mkPet 90 50 7 false "dead") (rng_of [0; 1; 1])).
    reflexivity.
Defined.

(** ** Sleep *)

Lemma exec_asleep (C : PetClass) (c : call) (w : pet * rng) :
  C = hw_class \/ C = sim_class ->
  sound (fst w) -> is_asleep (fst w) = true ->
  c <> ToggleSleep ->
  is_asleep (fst (exec C c w)) = true /\ state (fst (exec C c w)) = "asleep".
Proof.
  intros HC Hw Ha Hc.
  assert (Hs : state (fst w) = "asleep").
  { apply coherent_sleep_rules; [apply Hw | exact Ha]. }
  assert (E : exec C c w = exec hw_class c w).
  { destruct HC as [-> | ->]; [reflexivity | apply exec_same, Hw]. }
  rewrite E. clear E HC.
  destruct c; cbn [exec hw_class m_update_tick m_feed m_play m_toggle_sleep
                   fst snd].
  - rewrite update_tick_live by (rewrite Hs; discriminate).
    rewrite Ha. destruct (draw 1 6 0 (snd w) =? 1); cbn [fst]; split;
      reflexivity.
  - rewrite hw_feed_guarded by auto. cbn [snd]. auto.
  - rewrite hw_play_guarded by auto. cbn [snd]. auto.
  - contradiction.
Qed.

Lemma reachable_sound (C : PetClass) (w : pet * rng) :
  C = hw_class \/ C = sim_class -> reachable C w -> sound (fst w).
Proof.
  intros [-> | ->]; [apply reachable_hw_sound | apply reachable_sim_sound].
Qed.

(** C3. In every reachable state of either class, is_asleep implies that the
    state is "asleep", whatever the stats are, so a sleeping pet is not
    "dead"; and no call made on a sleeping pet produces "dead" while the pet
    stays asleep: update_tick, feed and play leave it "asleep", and only a
    toggle_sleep that wakes it can yield "dead". *)
Theorem asleep_flag_forces_state (C : PetClass) (w : pet * rng) :
  C = hw_class \/ C = sim_class ->
  reachable C w ->
  is_asleep (fst w) = true ->
  state (fst w) = "asleep" /\
  state (fst w) <> "dead" /\
  forall c,
    (c <> ToggleSleep -> state (fst (exec C c w)) = "asleep") /\
    (is_asleep (fst (exec C c w)) = true ->
     state (fst (exec C c w)) = "asleep") /\
    (state (fst (exec C c w)) = "dead" ->
     c = ToggleSleep /\ is_asleep (fst (exec C c w)) = false).
Proof.
  intros HC Hr Ha.
  pose proof (reachable_sound C w HC Hr) as Hw.
  assert (Hs : state (fst w) = "asleep").
  { apply coherent_sleep_rules; [apply Hw | exact Ha]. }
  split; [exact Hs|]. split; [rewrite Hs; discriminate|].
  intros c.
  assert (Hnext : sleep_rules (fst (exec C c w))).
  { apply coherent_sleep_rules.
    apply (reachable_sound C _ HC (reach_call C c w Hr)). }
  split; [|split].
  - intros Hc. apply (exec_asleep C c w HC Hw Ha Hc).
  - exact Hnext.
  - intros Hd. destruct c.
    1-3: match type of Hd with
         | context [exec _ ?c _] =>
             assert (Hc : c <> ToggleSleep) by discriminate;
             destruct (exec_asleep C c w HC Hw Ha Hc) as [_ E];
             rewrite E in Hd; discriminate
         end.
    split; [reflexivity|].
    destruct (is_asleep (fst (exec C ToggleSleep w))) eqn:E; [|reflexivity].
    rewrite (Hnext E) in Hd. discriminate.
Qed.

Lemma asleep_flag_forces_state_witness :
  let w := run hw_class
             [Play; Play; Play; ToggleSleep; Tick; Tick; Tick; Tick; Tick; Tick]
             (new hw_class, rng_of [0; 1; 0; 1; 0; 1; 0; 1; 0; 1; 0; 1]) in
  reachable hw_class w /\ is_asleep (fst w) = true /\ hunger (fst w) > 85 /\
  state (fst w) = "asleep".
Proof.
  cbv zeta. split; [apply reachable_from_new|].
  split; [vm_compute; reflexivity|]. split; [vm_compute; reflexivity|].
  refine (proj1 (asleep_flag_forces_state hw_class _ _ _ _)).
  - left. reflexivity.
  - apply reachable_from_new.
  - vm_compute. reflexivity.
Defined.

(** ** The state is derived *)

(** C4. In every reachable state of the tamagotchi.py class the state field
    equals the derivation rule applied to (hunger, happiness, is_asleep):
    asleep, else dead when hunger > 85 or happiness < 15, else hungry when
    hunger > 70, else sad when happiness < 30, else happy when
    happiness > 80, else neutral. update_state computes exactly that rule,
    and any call that changes hunger, happiness or is_asleep, on any pet,
    returns with the state recomputed from the new values. *)
Theorem state_is_never_stale (w : pet * rng) :
  reachable hw_class w ->
  state (fst w) =
    derive_state (hunger (fst w)) (happiness (fst w)) (is_asleep (fst w)) /\
  (forall p,
     Tamagotchi.update_state p =
     set_state p (derive_state (hunger p) (happiness p) (is_asleep p))) /\
  (forall c v,
     let q := fst (exec hw_class c v) in
     hunger q <> hunger (fst v) \/ happiness q <> happiness (fst v) \/
     is_asleep q <> is_asleep (fst v) ->
     state q = derive_state (hunger q) (happiness q) (is_asleep q)).
Proof.
  intros Hr. split; [|split].
  - apply (reachable_hw_sound w Hr).
  - exact update_state_derive.
  - intros c v q Hchg.
    destruct (exec_hw_recomputes c v) as [E | Hc]; [|exact Hc].
    subst q. rewrite E in Hchg.
    destruct Hchg as [H | [H | H]]; contradiction H; reflexivity.
Qed.

Lemma state_is_never_stale_witness :
  let w := run hw_class [Feed; Play; Tick; Play; ToggleSleep; Tick]
               (new hw_class, rng_of [0; 1; 0; 3]) in
  reachable hw_class w /\
  state (fst w) =
    derive_state (hunger (fst w)) (happiness (fst w)) (is_asleep (fst w)).
Proof.
  cbv zeta. split; [apply reachable_from_new|].
  refine (proj1 (state_is_never_stale _ _)).
  apply reachable_from_new.
Defined.

(** ** The tick *)

Lemma decays_live (p : pet) (g : rng) :
  state p <> "dead" ->
  decays p g =
  if is_asleep p then draw 1 6 0 g =? 1 else draw 1 2 0 g =? 1.
Proof.
  intros H. unfold decays. rewrite update_tick_live by assumption.
  destruct (is_asleep p);
    match goal with |- context [if ?b then _ else _] => destruct b end;
    cbn [snd advance cursor Nat.add].
  - apply Nat.ltb_lt. lia.
  - apply Nat.ltb_irrefl.
  - apply Nat.ltb_lt. lia.
  - apply Nat.ltb_irrefl.
Qed.

Lemma filter_decays (p : pet) (f : rng -> bool) (l : list rng) :
  (forall g, decays p g = f g) -> filter (decays p) l = filter f l.
Proof. intros H. apply filter_ext. exact H. Qed.

(** C5. On a pet that is not dead, update_tick adds exactly 1 to age, keeps
    the sleep flag, and, the random draws being the values the generator
    yields: asleep, the first draw is from [1,6] and only the value 1 (one
    of the six equally likely first draws) makes it add a second draw from
    [0,1] to hunger and set happiness to min(100, happiness + 1); awake, the
    first draw is from [1,2] and only the value 1 (one of the two) makes it
    add a draw from [1,2] to hunger and subtract a further draw from [1,2]
    from happiness; any other first draw changes no stat. Then both stats
    are clamped to [0,100] and the state is derived from the result. *)
Theorem update_tick_on_live_pet (p : pet) (g : rng) :
  state p <> "dead" ->
  let q := fst (Tamagotchi.update_tick p g) in
  let g' := snd (Tamagotchi.update_tick p g) in
  age q = age p + 1 /\
  is_asleep q = is_asleep p /\
  state q = derive_state (hunger q) (happiness q) (is_asleep q) /\
  (is_asleep p = true ->
     1 <= draw 1 6 0 g <= 6 /\ 0 <= draw 0 1 1 g <= 1 /\
     (draw 1 6 0 g = 1 ->
        hunger q = clamp (hunger p + draw 0 1 1 g) /\
        happiness q = clamp (Z.min 100 (happiness p + 1)) /\
        g' = advance 2 g) /\
     (draw 1 6 0 g <> 1 ->
        hunger q = clamp (hunger p) /\ happiness q = clamp (happiness p) /\
        g' = advance 1 g) /\
     length (first_cells 6) = 6%nat /\
     length (filter (decays p) (first_cells 6)) = 1%nat) /\
  (is_asleep p = false ->
     1 <= draw 1 2 0 g <= 2 /\ 1 <= draw 1 2 1 g <= 2 /\
     1 <= draw 1 2 2 g <= 2 /\
     (draw 1 2 0 g = 1 ->
        hunger q = clamp (hunger p + draw 1 2 1 g) /\
        happiness q = clamp (happiness p - draw 1 2 2 g) /\
        g' = advance 3 g) /\
     (draw 1 2 0 g <> 1 ->
        hunger q = clamp (hunger p) /\ happiness q = clamp (happiness p) /\
        g' = advance 1 g) /\
     length (first_cells 2) = 2%nat /\
     length (filter (decays p) (first_cells 2)) = 1%nat).
Proof.
  intros Hlive q g'. subst q g'.
  pose proof (decays_live p) as Hdec.
  rewrite update_tick_live by assumption.
  destruct (is_asleep p) eqn:Ha.
  - destruct (Z.eqb_spec (draw 1 6 0 g) 1) as [E | E]; cbn [fst snd];
      (destruct (update_state_fields
                   (mkPet (clamp (hunger p + draw 0 1 1 g))
                          (clamp (Z.min 100 (happiness p + 1)))
                          (age p + 1) true (state p)))
         as (Eh1 & Ej1 & Ea1 & Es1 & _));
      (destruct (update_state_fields
                   (mkPet (clamp (hunger p)) (clamp (happiness p))
                          (age p + 1) true (state p)))
         as (Eh2 & Ej2 & Ea2 & Es2 & _));
      (split; [assumption|]); (split; [assumption|]);
      (split; [apply update_state_coherent|]);
      (split; [|discriminate]); intros _;
      (split; [apply randint_range; lia|]);
      (split; [apply randint_range; lia|]);
      (split; [intros E'; try contradiction; auto|]);
      (split; [intros E'; try contradiction; auto|]);
      (split; [reflexivity|]);
      rewrite (filter_decays p (fun g => draw 1 6 0 g =? 1))
        by (intros g0; rewrite Hdec by assumption; reflexivity);
      reflexivity.
  - destruct (Z.eqb_spec (draw 1 2 0 g) 1) as [E | E]; cbn [fst snd];
      (destruct (update_state_fields
                   (mkPet (clamp (hunger p + draw 1 2 1 g))
                          (clamp (happiness p - draw 1 2 2 g))
                          (age p + 1) false (state p)))
         as (Eh1 & Ej1 & Ea1 & Es1 & _));
      (destruct (update_state_fields
                   (mkPet (clamp (hunger p)) (clamp (happiness p))
                          (age p + 1) false (state p)))
         as (Eh2 & Ej2 & Ea2 & Es2 & _));
      (split; [assumption|]); (split; [assumption|]);
      (split; [apply update_state_coherent|]);
      (split; [discriminate|]); intros _;
      (split; [apply randint_range; lia|]);
      (split; [apply randint_range; lia|]);
      (split; [apply randint_range; lia|]);
      (split; [intros E'; try contradiction; auto|]);
      (split; [intros E'; try contradiction; auto|]);
      (split; [reflexivity|]);
      rewrite (filter_decays p (fun g => draw 1 2 0 g =? 1))
        by (intros g0; rewrite Hdec by assumption; reflexivity);
      reflexivity.
Qed.

Lemma update_tick_on_live_pet_witness :
  let p := mkPet 50 50 0 false "neutral" in
  let g := rng_of [0; 1; 0] in
  let q := fst (Tamagotchi.update_tick p g) in
  state p <> "dead" /\
  hunger q = 52 /\ happiness q = 49 /\ age q = 1 /\
  snd (Tamagotchi.update_tick p g) = advance 3 g.
Proof.
  cbv zeta.
  assert (Hlive : state (mkPet 50 50 0 false "neutral") <> "dead")
    by discriminate.
  split; [exact Hlive|].
  destruct (update_tick_on_live_pet (mkPet 50 50 0 false "neutral")
              (rng_of [0; 1; 0]) Hlive)
    as (Ea & Es & Est & _ & Hawake).
  destruct (Hawake eq_refl) as (_ & _ & _ & (Eh & Ej & Eg) & _);
    [reflexivity|].
  split; [exact Eh|]. split; [exact Ej|]. split; [exact Ea|]. exact Eg.
Defined.

(** ** Guards *)

Lemma hw_feed_flag (p : pet) :
  fst (Tamagotchi.feed p) = false <-> is_asleep p = true \/ state p = "dead".
Proof.
  rewrite <- guard_true. unfold Tamagotchi.feed.
  destruct (is_asleep p || String.eqb (state p) "dead")%bool; cbn [fst];
    split; congruence.
Qed.

Lemma hw_play_flag (p : pet) :
  fst (Tamagotchi.play p) = false <-> is_asleep p = true \/ state p = "dead".
Proof.
  rewrite <- guard_true. unfold Tamagotchi.play.
  destruct (is_asleep p || String.eqb (state p) "dead")%bool; cbn [fst];
    split; congruence.
Qed.

Lemma toggle_sleep_flag (p : pet) :
  fst (Tamagotchi.toggle_sleep p) = false <-> state p = "dead".
Proof.
  rewrite <- dead_eqb. unfold Tamagotchi.toggle_sleep.
  destruct (String.eqb (state p) "dead"); cbn [fst]; split; congruence.
Qed.

(** C6. feed and play return False and leave the whole pet as it was
    exactly when the pet is asleep or dead, and toggle_sleep does so exactly
    when the pet is dead. Every method is a total function that returns a
    flag and a pet (nothing is raised); a False flag means no attribute
    changed, a True flag means the documented mutation was applied, and the
    dead pet of hunger 90, happiness 50 refuses to be fed. *)
Theorem guards_return_false_without_mutation (p : pet) :
  ((fst (Tamagotchi.feed p) = false /\ snd (Tamagotchi.feed p) = p) <->
   (is_asleep p = true \/ state p = "dead")) /\
  ((fst (Tamagotchi.play p) = false /\ snd (Tamagotchi.play p) = p) <->
   (is_asleep p = true \/ state p = "dead")) /\
  ((fst (Tamagotchi.toggle_sleep p) = false /\
    snd (Tamagotchi.toggle_sleep p) = p) <-> state p = "dead") /\
  (fst (Tamagotchi.feed p) = false -> snd (Tamagotchi.feed p) = p) /\
  (fst (Tamagotchi.play p) = false -> snd (Tamagotchi.play p) = p) /\
  (fst (Tamagotchi.toggle_sleep p) = false ->
   snd (Tamagotchi.toggle_sleep p) = p) /\
  (fst (Tamagotchi.feed p) = true ->
   snd (Tamagotchi.feed p) =
   Tamagotchi.update_state
     (mkPet (clamp (hunger p - 25)) (clamp (happiness p + 5))
            (age p) (is_asleep p) (state p))) /\
  (fst (Tamagotchi.play p) = true ->
   snd (Tamagotchi.play p) =
   Tamagotchi.update_state
     (mkPet (clamp (hunger p + 10)) (clamp (happiness p + 20))
            (age p) (is_asleep p) (state p))) /\
  (fst (Tamagotchi.toggle_sleep p) = true ->
   snd (Tamagotchi.toggle_sleep p) =
   Tamagotchi.update_state
     (mkPet (hunger p) (happiness p) (age p) (negb (is_asleep p))
            (state p))) /\
  Tamagotchi.update_state (mkPet 90 50 0 false "neutral") =
    mkPet 90 50 0 false "dead" /\
  Tamagotchi.feed (mkPet 90 50 0 false "dead") =
    (false, mkPet 90 50 0 false "dead").
Proof.
  assert (Hf : fst (Tamagotchi.feed p) = false -> snd (Tamagotchi.feed p) = p).
  { intros H. apply hw_feed_flag in H. rewrite hw_feed_guarded by assumption.
    reflexivity. }
  assert (Hp : fst (Tamagotchi.play p) = false -> snd (Tamagotchi.play p) = p).
  { intros H. apply hw_play_flag in H. rewrite hw_play_guarded by assumption.
    reflexivity. }
  assert (Ht : fst (Tamagotchi.toggle_sleep p) = false ->
               snd (Tamagotchi.toggle_sleep p) = p).
  { intros H. apply toggle_sleep_flag in H.
    rewrite toggle_sleep_dead by assumption. reflexivity. }
  repeat match goal with |- _ /\ _ => split end;
    try assumption; try reflexivity.
  - split.
    + intros [H _]. apply hw_feed_flag, H.
    + intros H. split; [apply hw_feed_flag, H | apply Hf, hw_feed_flag, H].
  - split.
    + intros [H _]. apply hw_play_flag, H.
    + intros H. split; [apply hw_play_flag, H | apply Hp, hw_play_flag, H].
  - split.
    + intros [H _]. apply toggle_sleep_flag, H.
    + intros H. split;
        [apply toggle_sleep_flag, H | apply Ht, toggle_sleep_flag, H].
  - intros H.
    destruct (is_asleep p) eqn:Ha;
      [rewrite hw_feed_guarded in H by auto; discriminate|].
    case_dead p; [rewrite hw_feed_guarded in H by auto; discriminate|].
    rewrite hw_feed_live by assumption. reflexivity.
  - intros H.
    destruct (is_asleep p) eqn:Ha;
      [rewrite hw_play_guarded in H by auto; discriminate|].
    case_dead p; [rewrite hw_play_guarded in H by auto; discriminate|].
    rewrite hw_play_live by assumption. reflexivity.
  - intros H.
    case_dead p; [rewrite toggle_sleep_dead in H by auto; discriminate|].
    rewrite toggle_sleep_live by assumption. reflexivity.
Qed.

(** ** feed, play and toggle_sleep on a live pet *)

Lemma post_of_update_state (h j a : Z) (s : bool) (st : string) :
  let q := Tamagotchi.update_state (mkPet h j a s st) in
  hunger q = h /\ happiness q = j /\ age q = a /\ is_asleep q = s /\
  coherent q.
Proof.
  cbv zeta.
  destruct (update_state_fields (mkPet h j a s st)) as (-> & -> & -> & -> & _).
  repeat split. apply update_state_coherent.
Qed.

Lemma hw_feed_post (p : pet) :
  is_asleep p = false -> state p <> "dead" -> in_range p ->
  feed_post p (Tamagotchi.feed p).
Proof.
  intros Ha Hd [Hh Hj]. rewrite hw_feed_live by assumption.
  destruct (clamp_feed (hunger p) (happiness p)) as [-> ->]; [lia..|].
  unfold feed_post. cbn [fst snd]. rewrite Ha.
  destruct (post_of_update_state (Z.max 0 (hunger p - 25))
              (Z.min 100 (happiness p + 5)) (age p) false (state p))
    as (? & ? & ? & ? & ?).
  repeat split; assumption.
Qed.

Lemma hw_play_post (p : pet) :
  is_asleep p = false -> state p <> "dead" -> in_range p ->
  play_post p (Tamagotchi.play p).
Proof.
  intros Ha Hd [Hh Hj]. rewrite hw_play_live by assumption.
  destruct (clamp_play (hunger p) (happiness p)) as [-> ->]; [lia..|].
  unfold play_post. cbn [fst snd]. rewrite Ha.
  destruct (post_of_update_state (Z.min 100 (hunger p + 10))
              (Z.min 100 (happiness p + 20)) (age p) false (state p))
    as (? & ? & ? & ? & ?).
  repeat split; assumption.
Qed.

(** An awake pet whose state is up to date and not "dead" has hunger at
    most 85, so [play] never saturates its hunger. *)

Lemma live_awake_hunger (p : pet) :
  coherent p -> is_asleep p = false -> state p <> "dead" -> hunger p <= 85.
Proof.
  unfold coherent, derive_state. intros Hc Ha Hd. rewrite Ha in Hc.
  destruct (Z.gtb_spec (hunger p) 85) as [Hgt | Hle]; [|lia].
  cbn in Hc. contradiction.
Qed.

(** C7. On an awake pet that is not dead and whose stats are in [0,100],
    feed (of either file) returns True, sets hunger to max(0, hunger - 25)
    and happiness to min(100, happiness + 5), leaves age and is_asleep as
    they were and derives the state from the new stats; on a new pet it
    gives hunger 25, happiness 55, state neutral. *)
Theorem feed_on_live_pet (p : pet) :
  is_asleep p = false -> state p <> "dead" ->
  0 <= hunger p <= 100 -> 0 <= happiness p <= 100 ->
  feed_post p (Tamagotchi.feed p) /\
  feed_post p (TamSim.feed p) /\
  Tamagotchi.feed Tamagotchi.__init__ = (true, mkPet 25 55 0 false "neutral") /\
  TamSim.feed TamSim.__init__ = (true, mkPet 25 55 0 false "neutral").
Proof.
  intros Ha Hd Hh Hj.
  assert (Hr : in_range p) by (split; assumption).
  split; [|split; [|split; reflexivity]].
  - apply hw_feed_post; assumption.
  - rewrite feed_same by assumption. apply hw_feed_post; assumption.
Qed.

Lemma feed_on_live_pet_witness :
  let p := mkPet 10 98 3 false "happy" in
  is_asleep p = false /\ state p <> "dead" /\
  0 <= hunger p <= 100 /\ 0 <= happiness p <= 100 /\
  feed_post p (Tamagotchi.feed p).
Proof.
  cbv zeta.
  assert (Hd : state (mkPet 10 98 3 false "happy") <> "dead") by discriminate.
  assert (Hh : 0 <= hunger (mkPet 10 98 3 false "happy") <= 100) by (cbn; lia).
  assert (Hj : 0 <= happiness (mkPet 10 98 3 false "happy") <= 100)
    by (cbn; lia).
  split; [reflexivity|]. split; [exact Hd|]. split; [exact Hh|].
  split; [exact Hj|].
  exact (proj1 (feed_on_live_pet (mkPet 10 98 3 false "happy")
                  eq_refl Hd Hh Hj)).
Defined.

(** C8. On an awake pet that is not dead and whose stats are in [0,100],
    play (of either file) returns True, sets happiness to
    min(100, happiness + 20) and hunger to min(100, hunger + 10), leaves age
    and is_asleep as they were and derives the state from the new stats;
    with happiness 95 the new happiness is 100, not 115, and hunger grows by
    10 (whenever it was at most 90, which covers every such pet whose state
    was up to date, and the pet of hunger 50 in particular). *)
Theorem play_on_live_pet (p : pet) :
  is_asleep p = false -> state p <> "dead" ->
  0 <= hunger p <= 100 -> 0 <= happiness p <= 100 ->
  play_post p (Tamagotchi.play p) /\
  play_post p (TamSim.play p) /\
  (happiness p = 95 ->
   happiness (snd (Tamagotchi.play p)) = 100 /\
   happiness (snd (Tamagotchi.play p)) <> 115 /\
   (hunger p <= 90 -> hunger (snd (Tamagotchi.play p)) = hunger p + 10) /\
   (coherent p -> hunger (snd (Tamagotchi.play p)) = hunger p + 10)) /\
  Tamagotchi.play (mkPet 50 95 0 false "happy") =
    (true, mkPet 60 100 0 false "happy") /\
  TamSim.play (mkPet 50 95 0 false "happy") =
    (true, mkPet 60 100 0 false "happy").
Proof.
  intros Ha Hd Hh Hj.
  assert (Hr : in_range p) by (split; assumption).
  pose proof (hw_play_post p Ha Hd Hr) as Hpost.
  split; [exact Hpost|]. split; [|split; [|split; reflexivity]].
  - rewrite play_same by assumption. exact Hpost.
  - intros E. destruct Hpost as (_ & Ej & Eh & _).
    rewrite Ej, Eh, E. repeat split; try lia.
    intros Hc. pose proof (live_awake_hunger p Hc Ha Hd). lia.
Qed.

Lemma play_on_live_pet_witness :
  let p := mkPet 50 95 0 false "happy" in
  is_asleep p = false /\ state p <> "dead" /\
  0 <= hunger p <= 100 /\ 0 <= happiness p <= 100 /\
  play_post p (Tamagotchi.play p).
Proof.
  cbv zeta.
  assert (Hd : state (mkPet 50 95 0 false "happy") <> "dead") by discriminate.
  assert (Hh : 0 <= hunger (mkPet 50 95 0 false "happy") <= 100) by (cbn; lia).
  assert (Hj : 0 <= happiness (mkPet 50 95 0 false "happy") <= 100)
    by (cbn; lia).
  split; [reflexivity|]. split; [exact Hd|]. split; [exact Hh|].
  split; [exact Hj|].
  exact (proj1 (play_on_live_pet (mkPet 50 95 0 false "happy")
                  eq_refl Hd Hh Hj)).
Defined.

(** C9. On a pet that is not dead, toggle_sleep returns True, flips
    is_asleep, leaves hunger, happiness and age as they were and derives the
    state from the result. Going to sleep always gives the state "asleep",
    also with hunger 90 and happiness 10; waking up with hunger 90 gives the
    state "dead" at once. *)
Theorem toggle_sleep_on_live_pet (p : pet) :
  state p <> "dead" ->
  toggle_post p (Tamagotchi.toggle_sleep p) /\
  (is_asleep p = false -> state (snd (Tamagotchi.toggle_sleep p)) = "asleep") /\
  (is_asleep p = true -> hunger p > 85 \/ happiness p < 15 ->
   state (snd (Tamagotchi.toggle_sleep p)) = "dead") /\
  Tamagotchi.toggle_sleep (mkPet 90 10 0 false "neutral") =
    (true, mkPet 90 10 0 true "asleep") /\
  Tamagotchi.toggle_sleep (mkPet 90 50 0 true "asleep") =
    (true, mkPet 90 50 0 false "dead").
Proof.
  intros Hd. rewrite toggle_sleep_live by assumption. cbn [fst snd].
  pose proof (post_of_update_state (hunger p) (happiness p) (age p)
                (negb (is_asleep p)) (state p)) as Hpost.
  cbv zeta in Hpost. destruct Hpost as (Eh & Ej & Ea & Es & Hc).
  split; [unfold toggle_post; cbn [fst snd]; repeat split; assumption|].
  split; [|split; [|split; reflexivity]].
  - intros Ha. rewrite Hc, Es, Ha. reflexivity.
  - intros Ha Hlethal. rewrite Hc, Es, Eh, Ej, Ha. unfold derive_state.
    cbn [negb].
    destruct (Z.gtb_spec (hunger p) 85); destruct (Z.ltb_spec (happiness p) 15);
      cbn [orb]; try reflexivity; lia.
Qed.

Lemma toggle_sleep_on_live_pet_witness :
  let p := mkPet 90 10 4 true "asleep" in
  state p <> "dead" /\ toggle_post p (Tamagotchi.toggle_sleep p).
Proof.
  cbv zeta.
  assert (Hd : state (mkPet 90 10 4 true "asleep") <> "dead") by discriminate.
  split; [exact Hd|].
  exact (proj1 (toggle_sleep_on_live_pet (mkPet 90 10 4 true "asleep") Hd)).
Defined.

(** ** The two files *)

(** C10. The class of tamagotchi.py and the class of tam_sim.py behave
    alike: on every pet whose hunger and happiness are in [0,100], whatever
    its sleep flag, age and state, and with every generator, update_tick,
    update_state, feed, play and toggle_sleep of the two files return the
    same flag, the same pet and the same generator, although feed and play
    write the clamp differently; hence every sequence of calls made on such
    a pet gives the same result in both. *)
Theorem two_files_agree (p : pet) :
  0 <= hunger p <= 100 -> 0 <= happiness p <= 100 ->
  (forall g, TamSim.update_tick p g = Tamagotchi.update_tick p g) /\
  TamSim.update_state p = Tamagotchi.update_state p /\
  TamSim.feed p = Tamagotchi.feed p /\
  TamSim.play p = Tamagotchi.play p /\
  TamSim.toggle_sleep p = Tamagotchi.toggle_sleep p /\
  TamSim.__init__ = Tamagotchi.__init__ /\
  (forall cs g, run sim_class cs (p, g) = run hw_class cs (p, g)).
Proof.
  intros Hh Hj.
  assert (Hr : in_range p) by (split; assumption).
  repeat match goal with |- _ /\ _ => split end; try reflexivity.
  - apply feed_same, Hr.
  - apply play_same, Hr.
  - intros cs g. apply run_same. exact Hr.
Qed.

Lemma two_files_agree_witness :
  let p := mkPet 100 0 12 false "sad" in
  0 <= hunger p <= 100 /\ 0 <= happiness p <= 100 /\
  TamSim.feed p = Tamagotchi.feed p /\ TamSim.play p = Tamagotchi.play p.
Proof.
  cbv zeta.
  assert (Hh : 0 <= hunger (mkPet 100 0 12 false "sad") <= 100) by (cbn; lia).
  assert (Hj : 0 <= happiness (mkPet 100 0 12 false "sad") <= 100)
    by (cbn; lia).
  split; [exact Hh|]. split; [exact Hj|].
  destruct (two_files_agree (mkPet 100 0 12 false "sad") Hh Hj)
    as (_ & _ & Ef & Ep & _).
  split; assumption.
Defined.

(** * Beyond the pet: sprites, screen, buttons and the main loops *)

(** ** get_sprite *)

Lemma derive_state_six (h j : Z) (a : bool) : In (derive_state h j a) the_six.
Proof.
  unfold derive_state, the_six.
  destruct a; [cbn; tauto|].
  destruct ((h >? 85) || (j <? 15))%bool; [cbn; tauto|].
  destruct (h >? 70); [cbn; tauto|].
  destruct (j <? 30); [cbn; tauto|].
  destruct (j >? 80); cbn; tauto.
Qed.

Lemma six_hit (st : string) :
  In st the_six ->
  dict_find Tamagotchi.SPRITES st =
  Some (dict_get Tamagotchi.SPRITES st
          (dict_get Tamagotchi.SPRITES "neutral" EmptyString)).
Proof.
  unfold the_six. cbn [In].
  intros [<- | [<- | [<- | [<- | [<- | [<- | []]]]]]]; reflexivity.
Qed.

Lemma six_sprites_differ (st st' : string) :
  In st the_six -> In st' the_six ->
  dict_get Tamagotchi.SPRITES st
    (dict_get Tamagotchi.SPRITES "neutral" EmptyString) =
  dict_get Tamagotchi.SPRITES st'
    (dict_get Tamagotchi.SPRITES "neutral" EmptyString) ->
  st = st'.
Proof.
  unfold the_six. cbn [In].
  intros [<- | [<- | [<- | [<- | [<- | [<- | []]]]]]]
         [<- | [<- | [<- | [<- | [<- | [<- | []]]]]]] H;
    try reflexivity; vm_compute in H; discriminate H.
Qed.

(** X1. The state of every reachable pet, in either file, is one of the six
    keys of SPRITES, so get_sprite finds its entry in the table and the
    default of the [get] call is never what it returns for lack of a key. *)
Theorem sprite_of_reachable_pet (C : PetClass) (w : pet * rng) :
  C = hw_class \/ C = sim_class ->
  reachable C w ->
  In (state (fst w)) the_six /\
  dict_find Tamagotchi.SPRITES (state (fst w)) =
    Some (Tamagotchi.get_sprite (fst w)) /\
  dict_find TamSim.SPRITES (state (fst w)) = Some (TamSim.get_sprite (fst w)).
Proof.
  intros HC Hr.
  destruct (reachable_sound C w HC Hr) as [_ Hc].
  assert (Hin : In (state (fst w)) the_six).
  { rewrite Hc. apply derive_state_six. }
  split; [exact Hin|]. split; apply six_hit, Hin.
Qed.

Lemma sprite_of_reachable_pet_witness :
  let w := run hw_class [Play; Play; ToggleSleep; Tick]
               (new hw_class, rng_of [3]) in
  reachable hw_class w /\
  dict_find Tamagotchi.SPRITES (state (fst w)) =
    Some (Tamagotchi.get_sprite (fst w)).
Proof.
  cbv zeta. split; [apply reachable_from_new|].
  refine (proj1 (proj2 (sprite_of_reachable_pet hw_class _ _ _))).
  - left. reflexivity.
  - apply reachable_from_new.
Defined.

(** X2. The sprite tells the state: two reachable pets (of either file, in
    any combination) get the same sprite from get_sprite exactly when their
    state fields are equal. *)
Theorem sprite_tells_state (C D : PetClass) (w v : pet * rng) :
  C = hw_class \/ C = sim_class ->
  D = hw_class \/ D = sim_class ->
  reachable C w -> reachable D v ->
  Tamagotchi.get_sprite (fst w) = Tamagotchi.get_sprite (fst v) <->
  state (fst w) = state (fst v).
Proof.
  intros HC HD Hw Hv.
  destruct (reachable_sound C w HC Hw) as [_ Hcw].
  destruct (reachable_sound D v HD Hv) as [_ Hcv].
  split.
  - apply six_sprites_differ.
    + rewrite Hcw. apply derive_state_six.
    + rewrite Hcv. apply derive_state_six.
  - intros E. unfold Tamagotchi.get_sprite. rewrite E. reflexivity.
Qed.

Lemma sprite_tells_state_witness :
  let w := run hw_class [Play; Play; Play] (new hw_class, rng_of []) in
  let v := run sim_class [ToggleSleep] (new sim_class, rng_of []) in
  reachable hw_class w /\ reachable sim_class v /\
  (Tamagotchi.get_sprite (fst w) = Tamagotchi.get_sprite (fst v) <->
   state (fst w) = state (fst v)).
Proof.
  cbv zeta. split; [apply reachable_from_new|].
  split; [apply reachable_from_new|].
  apply (sprite_tells_state hw_class sim_class).
  - left. reflexivity.
  - right. reflexivity.
  - apply reachable_from_new.
  - apply reachable_from_new.
Defined.

(** ** draw_display *)

Lemma items_draw_text (im : image) (at_xy : Z * Z) (t : string) (f : font)
    (k : Z) :
  items (draw_text im at_xy t f k) = (items im ++ [mkText at_xy t f k])%list.
Proof. reflexivity. Qed.

Lemma draw_display_items (p : pet) (m : string) :
  items (Tamagotchi.draw_display p m) =
  ([mkText (30, 20) (Tamagotchi.get_sprite p) FONT_LARGE 0] ++
   (if String.eqb (state p) "dead"
    then [mkText (30, 140) "GAME OVER" FONT_LARGE 0]
    else [mkText (10, 130) ("Hunger: " ++ str (hunger p) ++ "/100")
                 FONT_MEDIUM 0;
          mkText (10, 150) ("Happy:  " ++ str (happiness p) ++ "/100")
                 FONT_MEDIUM 0;
          mkText (10, 170) ("Age: " ++ str (age p)) FONT_MEDIUM 0]) ++
   [mkText (160, 20) "Feed (1)" FONT_SMALL 0;
    mkText (160, 40) "Play (2)" FONT_SMALL 0;
    mkText (160, 60) "Sleep (3)" FONT_SMALL 0] ++
   (if truthy m then [mkText (10, 200) m FONT_MEDIUM 0] else []))%list.
Proof.
  unfold Tamagotchi.draw_display. cbv zeta.
  destruct (String.eqb (state p) "dead"); destruct (truthy m);
    cbn [negb]; rewrite !items_draw_text; cbn [items app];
    rewrite <- ?app_assoc; reflexivity.
Qed.

(** X3. The GAME OVER line is on the screen exactly when the pet is dead,
    whatever the message is (even a message that reads GAME OVER is drawn
    elsewhere, in another font). *)
Theorem game_over_iff_dead (p : pet) (m : string) :
  In (mkText (30, 140) "GAME OVER" FONT_LARGE 0)
     (items (Tamagotchi.draw_display p m)) <->
  state p = "dead".
Proof.
  rewrite draw_display_items, <- dead_eqb.
  assert (Hxy : forall t f k at_xy,
             at_xy <> (30, 140) ->
             mkText at_xy t f k <> mkText (30, 140) "GAME OVER" FONT_LARGE 0).
  { intros t f k at_xy N E. apply N. exact (f_equal xy E). }
  destruct (String.eqb (state p) "dead"); destruct (truthy m); cbn [In app];
    split; intros H; try reflexivity; try discriminate H.
  1,2: right; left; reflexivity.
  all: repeat (destruct H as [H | H];
               [exfalso; revert H; apply Hxy; discriminate|]);
    contradiction.
Qed.

(** X4. The screen of a dead pet shows none of its numbers: two dead pets
    give the same image for the same message, whatever their hunger,
    happiness, age and sleep flag are, in both files. *)
Theorem dead_screen_hides_stats (p q : pet) (m : string) :
  state p = "dead" -> state q = "dead" ->
  Tamagotchi.draw_display p m = Tamagotchi.draw_display q m /\
  TamSim.draw_display p m = TamSim.draw_display q m.
Proof.
  intros Hp Hq.
  split;
    [unfold Tamagotchi.draw_display, Tamagotchi.get_sprite
    |unfold TamSim.draw_display, TamSim.get_sprite];
    rewrite Hp, Hq; reflexivity.
Qed.

Lemma dead_screen_hides_stats_witness :
  let p := mkPet 90 50 3 false "dead" in
  let q := mkPet 40 10 77 false "dead" in
  state p = "dead" /\ state q = "dead" /\
  Tamagotchi.draw_display p "Whee!" = Tamagotchi.draw_display q "Whee!".
Proof.
  cbv zeta. split; [reflexivity|]. split; [reflexivity|].
  exact (proj1 (dead_screen_hides_stats (mkPet 90 50 3 false "dead")
                  (mkPet 40 10 77 false "dead") "Whee!" eq_refl eq_refl)).
Defined.

(** ** MockGPIO.input *)

Lemma mock_input_low (pressed : option string) (pin : Z) :
  TamSim.MockGPIO_input pressed pin = TamSim.LOW <->
  (pin = TamSim.KEY_1_PIN /\ pressed = Some "1") \/
  (pin = TamSim.KEY_2_PIN /\ pressed = Some "2") \/
  (pin = TamSim.KEY_3_PIN /\ pressed = Some "3").
Proof.
  unfold TamSim.MockGPIO_input, TamSim.LOW, TamSim.HIGH.
  destruct pressed as [key |].
  - destruct ((pin =? TamSim.KEY_1_PIN) && String.eqb key "1")%bool eqn:B1;
      [|destruct ((pin =? TamSim.KEY_2_PIN) && String.eqb key "2")%bool eqn:B2;
        [|destruct ((pin =? TamSim.KEY_3_PIN) && String.eqb key "3")%bool
            eqn:B3]].
    1-3: match goal with
         | B : (_ && _)%bool = true |- _ =>
             apply andb_true_iff in B; destruct B as [P Q];
             apply Z.eqb_eq in P; apply String.eqb_eq in Q; subst
         end.
    + split; [intros _; left; split; reflexivity | reflexivity].
    + split; [intros _; right; left; split; reflexivity | reflexivity].
    + split; [intros _; right; right; split; reflexivity | reflexivity].
    + split; [discriminate|].
      intros [[-> E] | [[-> E] | [-> E]]]; injection E as ->;
        cbn in B1, B2, B3; discriminate.
  - split; [discriminate|].
    intros [[_ E] | [[_ E] | [_ E]]]; discriminate E.
Qed.

(** X5. The simulated buttons: whatever key is stored, at most one pin reads
    LOW; every read is LOW or HIGH; with no key stored, with the key "t" and
    on the fourth pin, every read is HIGH. *)
Theorem mock_gpio_one_button (pressed : option string) (pin pin' : Z) :
  (TamSim.MockGPIO_input pressed pin = TamSim.LOW ->
   TamSim.MockGPIO_input pressed pin' = TamSim.LOW -> pin = pin') /\
  (TamSim.MockGPIO_input pressed pin = TamSim.LOW \/
   TamSim.MockGPIO_input pressed pin = TamSim.HIGH) /\
  TamSim.MockGPIO_input None pin = TamSim.HIGH /\
  TamSim.MockGPIO_input (Some "t") pin = TamSim.HIGH /\
  TamSim.MockGPIO_input pressed TamSim.KEY_4_PIN = TamSim.HIGH.
Proof.
  assert (Hdom : forall k n,
             TamSim.MockGPIO_input k n = TamSim.LOW \/
             TamSim.MockGPIO_input k n = TamSim.HIGH).
  { intros k n. unfold TamSim.MockGPIO_input. destruct k as [key |]; [|auto].
    repeat match goal with
           | |- context [if ?b then _ else _] => destruct b
           end; auto. }
  assert (Hhigh : forall k n,
             TamSim.MockGPIO_input k n <> TamSim.LOW ->
             TamSim.MockGPIO_input k n = TamSim.HIGH).
  { intros k n H. destruct (Hdom k n); [contradiction | assumption]. }
  split; [|split; [apply Hdom | split; [reflexivity | split]]].
  - intros H H'. apply mock_input_low in H. apply mock_input_low in H'.
    destruct H as [[-> E] | [[-> E] | [-> E]]];
      destruct H' as [[-> E'] | [[-> E'] | [-> E']]];
      try reflexivity; rewrite E in E'; discriminate E'.
  - apply Hhigh. rewrite mock_input_low.
    intros [[_ E] | [[_ E] | [_ E]]]; discriminate E.
  - apply Hhigh. rewrite mock_input_low.
    intros [[E _] | [[E _] | [E _]]]; discriminate E.
Qed.

Lemma mock_gpio_one_button_witness :
  TamSim.MockGPIO_input (Some "2") 6 = TamSim.LOW /\
  (TamSim.MockGPIO_input (Some "2") 6 = TamSim.LOW -> 6 = 6).
Proof.
  split; [reflexivity|].
  intros H.
  exact (proj1 (mock_gpio_one_button (Some "2") 6 6) H H).
Defined.

(** ** The main loop of tamagotchi.py: buttons *)

Lemma hw_input_step_first (K : Clock) (now : time K) (gpio gpio' : Z -> Z)
    (s : session K) :
  (gpio Tamagotchi.KEY_1_PIN = Tamagotchi.LOW /\
   gpio' Tamagotchi.KEY_1_PIN = Tamagotchi.LOW) \/
  (gpio Tamagotchi.KEY_1_PIN <> Tamagotchi.LOW /\
   gpio' Tamagotchi.KEY_1_PIN <> Tamagotchi.LOW /\
   gpio Tamagotchi.KEY_2_PIN = Tamagotchi.LOW /\
   gpio' Tamagotchi.KEY_2_PIN = Tamagotchi.LOW) ->
  Tamagotchi.input_step now gpio s = Tamagotchi.input_step now gpio' s.
Proof.
  unfold Tamagotchi.input_step.
  intros [[H H'] | (N & N' & H & H')].
  - rewrite H, H'. reflexivity.
  - apply Z.eqb_neq in N, N'. rewrite N, N', H, H'. reflexivity.
Qed.

Lemma sim_input_step_first (K : Clock) (now : time K) (gpio gpio' : Z -> Z)
    (s : session K) :
  (gpio TamSim.KEY_1_PIN = TamSim.LOW /\
   gpio' TamSim.KEY_1_PIN = TamSim.LOW) \/
  (gpio TamSim.KEY_1_PIN <> TamSim.LOW /\
   gpio' TamSim.KEY_1_PIN <> TamSim.LOW /\
   gpio TamSim.KEY_2_PIN = TamSim.LOW /\
   gpio' TamSim.KEY_2_PIN = TamSim.LOW) ->
  TamSim.input_step now gpio s = TamSim.input_step now gpio' s.
Proof.
  unfold TamSim.input_step.
  intros [[H H'] | (N & N' & H & H')].
  - rewrite H, H'. reflexivity.
  - apply Z.eqb_neq in N, N'. rewrite N, N', H, H'. reflexivity.
Qed.

(** X6. Button priority. When the Feed pin reads LOW, an iteration of the
    loop does not depend on what the other pins read, and when Feed is not
    pressed but the Play pin reads LOW it does not depend on the Sleep pin
    (nor on any further pin); this holds for tamagotchi.py and for the
    hardware mode of tam_sim.py. *)
Theorem first_pressed_button_wins (K : Clock) (now : time K)
    (gpio gpio' : Z -> Z) (typed : string) (s : session K) :
  (gpio 5 = 0 /\ gpio' 5 = 0) \/
  (gpio 5 <> 0 /\ gpio' 5 <> 0 /\ gpio 6 = 0 /\ gpio' 6 = 0) ->
  Tamagotchi.loop_body now gpio s = Tamagotchi.loop_body now gpio' s /\
  TamSim.loop_body false now typed gpio s =
  TamSim.loop_body false now typed gpio' s.
Proof.
  intros H. split.
  - unfold Tamagotchi.loop_body.
    rewrite (hw_input_step_first K now gpio gpio' _ H). reflexivity.
  - unfold TamSim.loop_body. cbv iota beta.
    rewrite (sim_input_step_first K now gpio gpio' _ H). reflexivity.
Qed.

Lemma first_pressed_button_wins_witness :
  let s := Tamagotchi.main_start (K := ms_clock) 0 0 (rng_of []) in
  (held [5] 5 = 0 /\ held [5; 6; 13] 5 = 0) /\
  Tamagotchi.loop_body (K := ms_clock) 500 (held [5]) s =
  Tamagotchi.loop_body (K := ms_clock) 500 (held [5; 6; 13]) s.
Proof.
  cbv zeta.
  assert (H : held [5] 5 = 0 /\ held [5; 6; 13] 5 = 0)
    by (split; reflexivity).
  split; [exact H|].
  exact (proj1 (first_pressed_button_wins ms_clock 500 (held [5])
                  (held [5; 6; 13]) EmptyString
                  (Tamagotchi.main_start (K := ms_clock) 0 0 (rng_of []))
                  (or_introl H))).
Defined.

Lemma hw_input_step_bounce (K : Clock) (now : time K) (gpio : Z -> Z)
    (s : session K) :
  debounce_elapsed K now (s_last_button_press s) = false ->
  Tamagotchi.input_step now gpio s = (s, false).
Proof. intros H. unfold Tamagotchi.input_step. rewrite H. reflexivity. Qed.

Lemma hw_tick_step_press (K : Clock) (now : time K) (s : session K) :
  s_last_button_press (Tamagotchi.tick_step now s) = s_last_button_press s.
Proof.
  unfold Tamagotchi.tick_step.
  destruct (tick_elapsed K now (s_last_tick s)); [|reflexivity].
  destruct (Tamagotchi.update_tick (s_pet s) (s_rng s)). reflexivity.
Qed.

Lemma hw_draw_step_keeps (K : Clock) (a : bool) (s : session K) :
  s_pet (fst (Tamagotchi.draw_step a s)) = s_pet s /\
  s_rng (fst (Tamagotchi.draw_step a s)) = s_rng s /\
  s_last_tick (fst (Tamagotchi.draw_step a s)) = s_last_tick s /\
  s_last_button_press (fst (Tamagotchi.draw_step a s)) =
    s_last_button_press s.
Proof.
  unfold Tamagotchi.draw_step.
  destruct (s_needs_draw s); [|cbn [fst]; tauto].
  destruct (String.eqb (state (s_pet s)) "dead" && negb a)%bool;
    cbn [fst s_pet s_rng s_last_tick s_last_button_press]; tauto.
Qed.

(** X7. Debounce. When the debounce time has not elapsed since the last
    accepted press, an iteration ignores the pins altogether: it is the
    iteration with every button released, the pet is the one the tick step
    leaves, and last_button_press keeps its value. *)
Theorem bounce_is_ignored (K : Clock) (now : time K) (gpio : Z -> Z)
    (s : session K) :
  debounce_elapsed K now (s_last_button_press s) = false ->
  let r := Tamagotchi.loop_body now gpio s in
  r = Tamagotchi.loop_body now (fun _ => 1) s /\
  s_pet (fst r) = s_pet (Tamagotchi.tick_step now s) /\
  s_last_button_press (fst r) = s_last_button_press s.
Proof.
  intros H r. subst r. unfold Tamagotchi.loop_body.
  rewrite !hw_input_step_bounce by (rewrite hw_tick_step_press; exact H).
  cbn [Tamagotchi.mark_draw].
  destruct (hw_draw_step_keeps K false (Tamagotchi.tick_step now s))
    as (-> & _ & _ & ->).
  rewrite hw_tick_step_press. repeat split.
Qed.

Lemma bounce_is_ignored_witness :
  let s := mkSession (K := ms_clock) (mkPet 50 50 0 false "neutral")
             (rng_of []) 0 EmptyString 400 false in
  debounce_elapsed ms_clock 500 (s_last_button_press s) = false /\
  s_pet (fst (Tamagotchi.loop_body (K := ms_clock) 500 (held [5]) s)) =
  mkPet 50 50 0 false "neutral".
Proof.
  cbv zeta. split; [reflexivity|].
  exact (proj1 (proj2 (bounce_is_ignored ms_clock 500 (held [5])
    (mkSession (K := ms_clock) (mkPet 50 50 0 false "neutral")
       (rng_of []) 0 EmptyString 400 false) eq_refl))).
Defined.

(** X8. A refused press still restarts the debounce window. When the
    debounce time has elapsed and the Feed or the Play pin reads LOW while
    the pet, as the tick step leaves it, is asleep or dead, the iteration
    changes nothing in the pet and takes no action, yet last_button_press
    becomes the current time. *)
Theorem refused_press_restarts_debounce (K : Clock) (now : time K)
    (gpio : Z -> Z) (s : session K) :
  debounce_elapsed K now (s_last_button_press s) = true ->
  gpio 5 = 0 \/ gpio 6 = 0 ->
  is_asleep (s_pet (Tamagotchi.tick_step now s)) = true \/
  state (s_pet (Tamagotchi.tick_step now s)) = "dead" ->
  let r := Tamagotchi.loop_body now gpio s in
  s_pet (fst r) = s_pet (Tamagotchi.tick_step now s) /\
  snd (Tamagotchi.input_step now gpio (Tamagotchi.tick_step now s)) = false /\
  s_last_button_press (fst r) = now.
Proof.
  intros Hd Hpin Hg r. subst r. unfold Tamagotchi.loop_body.
  set (s1 := Tamagotchi.tick_step now s) in *.
  assert (Hd1 : debounce_elapsed K now (s_last_button_press s1) = true).
  { subst s1. rewrite hw_tick_step_press. exact Hd. }
  assert (E : Tamagotchi.input_step now gpio s1 =
              (mkSession (s_pet s1) (s_rng s1) (s_last_tick s1) (s_message s1)
                         now (s_needs_draw s1), false)).
  { unfold Tamagotchi.input_step. rewrite Hd1.
    unfold Tamagotchi.KEY_1_PIN, Tamagotchi.KEY_2_PIN, Tamagotchi.LOW.
    destruct (Z.eqb_spec (gpio 5) 0) as [E5 | N5].
    - rewrite hw_feed_guarded by exact Hg. reflexivity.
    - destruct Hpin as [E5 | E6]; [contradiction|].
      rewrite E6. cbn [Z.eqb].
      rewrite hw_play_guarded by exact Hg. reflexivity. }
  rewrite E. cbn [Tamagotchi.mark_draw snd].
  match goal with
  | |- context [Tamagotchi.draw_step false ?x] =>
      destruct (hw_draw_step_keeps K false x) as (-> & _ & _ & ->)
  end.
  cbn [s_pet s_last_button_press]. repeat split.
Qed.

Lemma refused_press_restarts_debounce_witness :
  let s := mkSession (K := ms_clock) (mkPet 50 50 0 true "asleep")
             (rng_of []) 0 EmptyString 0 false in
  debounce_elapsed ms_clock 500 (s_last_button_press s) = true /\
  held [5] 5 = 0 /\
  s_last_button_press
    (fst (Tamagotchi.loop_body (K := ms_clock) 500 (held [5]) s)) = 500.
Proof.
  cbv zeta. split; [reflexivity|]. split; [reflexivity|].
  exact (proj2 (proj2 (refused_press_restarts_debounce ms_clock 500 (held [5])
    (mkSession (K := ms_clock) (mkPet 50 50 0 true "asleep")
       (rng_of []) 0 EmptyString 0 false)
    eq_refl (or_introl eq_refl) (or_introl eq_refl)))).
Defined.

(** ** The main loop of tamagotchi.py: the display *)

Lemma hw_input_step_flag (K : Clock) (now : time K) (gpio : Z -> Z)
    (s : session K) :
  let r := Tamagotchi.input_step now gpio s in
  s_needs_draw (fst r) = s_needs_draw s /\
  s_rng (fst r) = s_rng s /\
  s_last_tick (fst r) = s_last_tick s /\
  (snd r = false -> s_message (fst r) = s_message s) /\
  (snd r = true ->
   s_last_button_press (fst r) = now /\
   In (s_message (fst r)) ["Yum!"; "Whee!"; "Zzz..."; "I'm awake!"]).
Proof.
  cbv zeta. unfold Tamagotchi.input_step.
  destruct (debounce_elapsed K now (s_last_button_press s));
    [|cbn; repeat split; discriminate].
  destruct (gpio Tamagotchi.KEY_1_PIN =? Tamagotchi.LOW);
    [destruct (Tamagotchi.feed (s_pet s)) as [[|] p]
    |destruct (gpio Tamagotchi.KEY_2_PIN =? Tamagotchi.LOW);
     [destruct (Tamagotchi.play (s_pet s)) as [[|] p]
     |destruct (gpio Tamagotchi.KEY_3_PIN =? Tamagotchi.LOW);
      [destruct (Tamagotchi.toggle_sleep (s_pet s)) as [[|] p];
       try destruct (is_asleep p)|]]];
    cbn [fst snd s_needs_draw s_rng s_last_tick s_message
         s_last_button_press In];
    repeat split; try discriminate; auto 6.
Qed.

Lemma hw_input_step_dead (K : Clock) (now : time K) (gpio : Z -> Z)
    (s : session K) :
  state (s_pet s) = "dead" ->
  s_pet (fst (Tamagotchi.input_step now gpio s)) = s_pet s /\
  snd (Tamagotchi.input_step now gpio s) = false.
Proof.
  intros H. unfold Tamagotchi.input_step.
  destruct (debounce_elapsed K now (s_last_button_press s)); [|auto].
  rewrite hw_feed_guarded, hw_play_guarded, toggle_sleep_dead by auto.
  destruct (gpio Tamagotchi.KEY_1_PIN =? Tamagotchi.LOW); [auto|].
  destruct (gpio Tamagotchi.KEY_2_PIN =? Tamagotchi.LOW); [auto|].
  destruct (gpio Tamagotchi.KEY_3_PIN =? Tamagotchi.LOW); auto.
Qed.

Lemma hw_input_step_released (K : Clock) (now : time K) (gpio : Z -> Z)
    (s : session K) :
  released gpio -> Tamagotchi.input_step now gpio s = (s, false).
Proof.
  intros (N1 & N2 & N3). apply Z.eqb_neq in N1, N2, N3.
  unfold Tamagotchi.input_step. rewrite N1, N2, N3.
  destruct (debounce_elapsed K now (s_last_button_press s)); reflexivity.
Qed.

Lemma hw_tick_step_dead (K : Clock) (now : time K) (s : session K) :
  state (s_pet s) = "dead" ->
  s_pet (Tamagotchi.tick_step now s) = s_pet s.
Proof.
  intros H. unfold Tamagotchi.tick_step.
  destruct (tick_elapsed K now (s_last_tick s)); [|reflexivity].
  rewrite update_tick_dead by exact H. reflexivity.
Qed.

Lemma hw_draw_step_dead (K : Clock) (s : session K) :
  state (s_pet s) = "dead" ->
  forallb is_sleep (snd (Tamagotchi.draw_step false s)) = true.
Proof.
  intros H. apply dead_eqb in H. unfold Tamagotchi.draw_step.
  rewrite H. destruct (s_needs_draw s); reflexivity.
Qed.

(** An iteration that ends with a dead pet and took no action shows
    nothing. *)

Lemma hw_loop_body_unseen (K : Clock) (now : time K) (gpio : Z -> Z)
    (s : session K) :
  snd (Tamagotchi.input_step now gpio (Tamagotchi.tick_step now s)) = false ->
  state (s_pet (fst (Tamagotchi.loop_body now gpio s))) = "dead" ->
  forallb is_sleep (snd (Tamagotchi.loop_body now gpio s)) = true.
Proof.
  unfold Tamagotchi.loop_body.
  destruct (Tamagotchi.input_step now gpio (Tamagotchi.tick_step now s))
    as [s2 a].
  cbn [snd]. intros ->. cbn [Tamagotchi.mark_draw].
  destruct (hw_draw_step_keeps K false s2) as (-> & _).
  apply hw_draw_step_dead.
Qed.

Lemma hw_loop_body_dead (K : Clock) (now : time K) (gpio : Z -> Z)
    (s : session K) :
  state (s_pet s) = "dead" ->
  s_pet (fst (Tamagotchi.loop_body now gpio s)) = s_pet s /\
  forallb is_sleep (snd (Tamagotchi.loop_body now gpio s)) = true.
Proof.
  intros H.
  assert (H1 : state (s_pet (Tamagotchi.tick_step now s)) = "dead")
    by (rewrite hw_tick_step_dead; assumption).
  destruct (hw_input_step_dead K now gpio _ H1) as [Ep Ea].
  assert (E : s_pet (fst (Tamagotchi.loop_body now gpio s)) = s_pet s).
  { unfold Tamagotchi.loop_body.
    destruct (Tamagotchi.input_step now gpio (Tamagotchi.tick_step now s))
      as [s2 a].
    cbn [fst snd] in Ep, Ea. subst a. cbn [Tamagotchi.mark_draw].
    destruct (hw_draw_step_keeps K false s2) as (-> & _).
    rewrite Ep. apply hw_tick_step_dead, H. }
  split; [exact E|].
  apply hw_loop_body_unseen; [exact Ea | rewrite E; exact H].
Qed.

Lemma hw_run_dead (K : Clock) (ins : list (time K * (Z -> Z)))
    (s : session K) :
  state (s_pet s) = "dead" ->
  s_pet (fst (hw_run ins s)) = s_pet s /\
  forallb is_sleep (snd (hw_run ins s)) = true.
Proof.
  revert s. induction ins as [| [now gpio] ins IH]; intros s H.
  - cbn. auto.
  - cbn [hw_run].
    destruct (hw_loop_body_dead K now gpio s H) as [Ep Eo].
    destruct (Tamagotchi.loop_body now gpio s) as [s1 out1].
    cbn [fst snd] in Ep, Eo.
    assert (H1 : state (s_pet s1) = "dead") by (rewrite Ep; exact H).
    destruct (IH s1 H1) as [Ep2 Eo2].
    destruct (hw_run ins s1) as [s2 out2]. cbn [fst snd] in *.
    split; [congruence|].
    rewrite forallb_app, Eo, Eo2. reflexivity.
Qed.

(** X9. Once the pet is dead, the loop of tamagotchi.py never draws again:
    whatever the clock and the buttons do in the following iterations, the
    pet stays as it is and every event of the loop is a time.sleep (there is
    no epd.display and no print). *)
Theorem dead_pet_is_never_redrawn (K : Clock)
    (ins : list (time K * (Z -> Z))) (s : session K) :
  state (s_pet s) = "dead" ->
  s_pet (fst (hw_run ins s)) = s_pet s /\
  forallb is_sleep (snd (hw_run ins s)) = true /\
  filter is_display (snd (hw_run ins s)) = [].
Proof.
  intros H. destruct (hw_run_dead K ins s H) as [Ep Eo].
  split; [exact Ep|]. split; [exact Eo|].
  induction (snd (hw_run ins s)) as [| e out IH]; [reflexivity|].
  cbn [forallb] in Eo. apply andb_true_iff in Eo as [He Ho].
  destruct e; try discriminate He. cbn. apply IH, Ho.
Qed.

Lemma dead_pet_is_never_redrawn_witness :
  let s := mkSession (K := ms_clock) (mkPet 90 50 4 false "dead")
             (rng_of []) 0 "Whee!" 0 true in
  state (s_pet s) = "dead" /\
  filter is_display
    (snd (hw_run (K := ms_clock)
            [(20000, held [5]); (40000, held [13]); (40300, held [6])]
            s)) = [].
Proof.
  cbv zeta. split; [reflexivity|].
  exact (proj2 (proj2 (dead_pet_is_never_redrawn ms_clock
    [(20000, held [5]); (40000, held [13]); (40300, held [6])]
    (mkSession (K := ms_clock) (mkPet 90 50 4 false "dead")
       (rng_of []) 0 "Whee!" 0 true) eq_refl))).
Defined.

(** X10. A death brought by a tick is never shown by tamagotchi.py. If no
    button is held during an iteration and the pet is dead when it ends,
    the iteration displays nothing, and neither does any later iteration:
    the GAME OVER screen is drawn only when the pet dies of an accepted
    button press. *)
Theorem death_by_tick_is_never_shown (K : Clock) (now : time K)
    (gpio : Z -> Z) (s : session K) (ins : list (time K * (Z -> Z))) :
  released gpio ->
  state (s_pet (fst (Tamagotchi.loop_body now gpio s))) = "dead" ->
  forallb is_sleep (snd (Tamagotchi.loop_body now gpio s)) = true /\
  forallb is_sleep
    (snd (hw_run ins (fst (Tamagotchi.loop_body now gpio s)))) = true /\
  forallb is_sleep (snd (hw_run ((now, gpio) :: ins) s)) = true.
Proof.
  intros Hrel Hdead.
  assert (H1 : forallb is_sleep (snd (Tamagotchi.loop_body now gpio s)) = true).
  { apply hw_loop_body_unseen; [|exact Hdead].
    rewrite hw_input_step_released by exact Hrel. reflexivity. }
  destruct (hw_run_dead K ins _ Hdead) as [_ H2].
  split; [exact H1|]. split; [exact H2|].
  cbn [hw_run].
  destruct (Tamagotchi.loop_body now gpio s) as [s1 out1].
  cbn [fst snd] in H1, H2.
  destruct (hw_run ins s1) as [s2 out2]. cbn [fst snd] in *.
  rewrite forallb_app, H1, H2. reflexivity.
Qed.

Lemma death_by_tick_is_never_shown_witness :
  let s := mkSession (K := ms_clock) (mkPet 85 50 9 false "hungry")
             (rng_of [0; 1; 0]) 0 EmptyString 0 false in
  released (held []) /\
  state (s_pet (fst (Tamagotchi.loop_body (K := ms_clock) 20000 (held []) s)))
    = "dead" /\
  forallb is_sleep
    (snd (Tamagotchi.loop_body (K := ms_clock) 20000 (held []) s)) = true.
Proof.
  cbv zeta.
  assert (Hrel : released (held [])) by (repeat split; discriminate).
  assert (Hdead :
    state (s_pet (fst (Tamagotchi.loop_body (K := ms_clock) 20000 (held [])
      (mkSession (K := ms_clock) (mkPet 85 50 9 false "hungry")
         (rng_of [0; 1; 0]) 0 EmptyString 0 false)))) = "dead")
    by (vm_compute; reflexivity).
  split; [exact Hrel|]. split; [exact Hdead|].
  exact (proj1 (death_by_tick_is_never_shown ms_clock 20000 (held [])
    (mkSession (K := ms_clock) (mkPet 85 50 9 false "hungry")
       (rng_of [0; 1; 0]) 0 EmptyString 0 false) [] Hrel Hdead)).
Defined.

(** X11. An accepted button press is drawn in two phases. When the input
    step takes an action, the iteration prints, displays the pet with the
    confirmation message ("Yum!", "Whee!", "Zzz..." or "I'm awake!"), prints
    again, sleeps 2 s, displays the same pet with no message and sleeps
    0.05 s; it ends with the message cleared, no redraw pending and
    last_button_press at the current time. *)
Theorem accepted_press_is_drawn_twice (K : Clock) (now : time K)
    (gpio : Z -> Z) (s : session K) :
  let s2 := fst (Tamagotchi.input_step now gpio (Tamagotchi.tick_step now s)) in
  snd (Tamagotchi.input_step now gpio (Tamagotchi.tick_step now s)) = true ->
  Tamagotchi.loop_body now gpio s =
    (mkSession (s_pet s2) (s_rng s2) (s_last_tick s2) EmptyString now false,
     [ Print (Tamagotchi.drawing_line (s_pet s2) (s_message s2));
       Display (Tamagotchi.draw_display (s_pet s2) (s_message s2));
       Print "...Draw complete.";
       Sleep 2000;
       Display (Tamagotchi.draw_display (s_pet s2) EmptyString);
       Sleep 50 ]) /\
  In (s_message s2) ["Yum!"; "Whee!"; "Zzz..."; "I'm awake!"].
Proof.
  intros s2 Ha. subst s2.
  destruct (hw_input_step_flag K now gpio (Tamagotchi.tick_step now s))
    as (_ & _ & _ & _ & Hacc).
  destruct (Hacc Ha) as [Epress Hmsg].
  split; [|exact Hmsg].
  unfold Tamagotchi.loop_body.
  destruct (Tamagotchi.input_step now gpio (Tamagotchi.tick_step now s))
    as [s2 a].
  cbn [fst snd] in *. subst a.
  unfold Tamagotchi.mark_draw, Tamagotchi.draw_step.
  cbn [s_needs_draw s_pet s_rng s_last_tick s_message s_last_button_press
       negb].
  rewrite andb_false_r, Epress. reflexivity.
Qed.

Lemma accepted_press_is_drawn_twice_witness :
  let s := Tamagotchi.main_start (K := ms_clock) 0 0 (rng_of []) in
  snd (Tamagotchi.input_step (K := ms_clock) 500 (held [6])
         (Tamagotchi.tick_step (K := ms_clock) 500 s)) = true /\
  length (filter is_display
            (snd (Tamagotchi.loop_body (K := ms_clock) 500 (held [6]) s)))
    = 2%nat.
Proof.
  cbv zeta. split; [reflexivity|].
  rewrite (proj1 (accepted_press_is_drawn_twice ms_clock 500 (held [6])
    (Tamagotchi.main_start (K := ms_clock) 0 0 (rng_of [])) eq_refl)).
  reflexivity.
Defined.





(** ** The main loop of tam_sim.py *)

Lemma input_step_same (K : Clock) (now : time K) (gpio : Z -> Z)
    (s : session K) :
  in_range (s_pet s) ->
  TamSim.input_step now gpio s = Tamagotchi.input_step now gpio s.
Proof.
  intros Hr. unfold TamSim.input_step, Tamagotchi.input_step.
  rewrite feed_same, play_same, toggle_sleep_same by exact Hr. reflexivity.
Qed.

Lemma tick_step_in_range (K : Clock) (now : time K) (s : session K) :
  in_range (s_pet s) -> in_range (s_pet (Tamagotchi.tick_step now s)).
Proof.
  intros Hr. unfold Tamagotchi.tick_step.
  destruct (tick_elapsed K now (s_last_tick s)); [|exact Hr].
  pose proof (exec_hw_in_range Tick (s_pet s, s_rng s) Hr) as H.
  cbn [exec hw_class m_update_tick fst snd] in H.
  destruct (Tamagotchi.update_tick (s_pet s) (s_rng s)). exact H.
Qed.




Lemma mock_none_released (K : Clock) (now : time K) (s : session K) :
  TamSim.input_step now (TamSim.MockGPIO_input None) s = (s, false).
Proof.
  unfold TamSim.input_step. cbn.
  destruct (debounce_elapsed K now (s_last_button_press s)); reflexivity.
Qed.

(** X14. The forced tick of the simulator. Typing "t" in simulation mode
    makes the iteration call update_tick once (the clock not counting a
    zero elapsed time as a tick interval), press no button, and display the
    resulting pet with the message "Tick!"; it leaves last_tick at the
    current time, the message cleared and no redraw pending. *)
Theorem forced_tick_is_shown (K : Clock) (now : time K) (pins : Z -> Z)
    (s : session K) :
  tick_elapsed K now now = false ->
  let p := fst (TamSim.update_tick (s_pet s) (s_rng s)) in
  let g := snd (TamSim.update_tick (s_pet s) (s_rng s)) in
  TamSim.loop_body true now "t" pins s =
    (mkSession p g now EmptyString (s_last_button_press s) false,
     [ Print "[SIM] Forcing game tick...";
       Print (TamSim.drawing_line p "Tick!");
       Display (TamSim.draw_display p "Tick!") ]).
Proof.
  intros Hz p g. subst p g.
  unfold TamSim.loop_body, TamSim.sim_input_step.
  cbn [String.eqb Ascii.eqb Bool.eqb andb].
  destruct (TamSim.update_tick (s_pet s) (s_rng s)) as [p g].
  cbn [fst snd]. unfold TamSim.tick_step at 1.
  cbn [s_last_tick]. rewrite Hz.
  rewrite mock_none_released.
  unfold TamSim.mark_draw, TamSim.draw_step.
  cbn [s_needs_draw s_pet s_rng s_last_tick s_message s_last_button_press
       negb andb app].
  reflexivity.
Qed.

Lemma forced_tick_is_shown_witness :
  let s := mkSession (K := ms_clock) (mkPet 85 50 9 false "hungry")
             (rng_of [0; 1; 0]) 0 EmptyString 0 false in
  tick_elapsed ms_clock 300 300 = false /\
  state (s_pet (fst (TamSim.loop_body (K := ms_clock) true 300 "t"
                       (held []) s))) = "dead" /\
  length (filter is_display
            (snd (TamSim.loop_body (K := ms_clock) true 300 "t"
                    (held []) s))) = 1%nat.
Proof.
  cbv zeta.
  rewrite (forced_tick_is_shown ms_clock 300 (held [])
    (mkSession (K := ms_clock) (mkPet 85 50 9 false "hungry")
       (rng_of [0; 1; 0]) 0 EmptyString 0 false) eq_refl).
  split; [reflexivity|]. split; reflexivity.
Defined.

Lemma sim_input_step_pending (K : Clock) (now : time K) (gpio : Z -> Z)
    (s : session K) :
  s_needs_draw (fst (TamSim.input_step now gpio s)) = s_needs_draw s.
Proof.
  unfold TamSim.input_step.
  destruct (debounce_elapsed K now (s_last_button_press s)); [|reflexivity].
  destruct (gpio TamSim.KEY_1_PIN =? TamSim.LOW);
    [destruct (TamSim.feed (s_pet s)); reflexivity|].
  destruct (gpio TamSim.KEY_2_PIN =? TamSim.LOW);
    [destruct (TamSim.play (s_pet s)); reflexivity|].
  destruct (gpio TamSim.KEY_3_PIN =? TamSim.LOW);
    [destruct (TamSim.toggle_sleep (s_pet s)); reflexivity | reflexivity].
Qed.

Lemma sim_mark_draw_pending (K : Clock) (a : bool) (s : session K) :
  s_needs_draw s = true -> s_needs_draw (TamSim.mark_draw a s) = true.
Proof. destruct a; [reflexivity | intros H; exact H]. Qed.

Lemma sim_draw_step_pending (K : Clock) (b a : bool) (s : session K) :
  s_needs_draw s = true ->
  let r := TamSim.draw_step b a s in
  In (Display (TamSim.draw_display (s_pet (fst r)) (s_message s))) (snd r) /\
  settled (fst r).
Proof.
  intros H. cbv zeta. unfold TamSim.draw_step. rewrite H.
  cbn [fst snd s_pet]. split; [|split; reflexivity].
  destruct (a && negb b)%bool; cbn [app In]; auto.
Qed.

(** X15. tam_sim.py shows every tick, the deadly one included. In hardware
    mode, an iteration in which the tick interval has elapsed always
    displays the pet as the iteration leaves it, dead or alive, and ends
    with no redraw pending and the message cleared. *)
Theorem sim_file_shows_every_tick (K : Clock) (now : time K)
    (typed : string) (pins : Z -> Z) (s : session K) :
  tick_elapsed K now (s_last_tick s) = true ->
  let r := TamSim.loop_body false now typed pins s in
  (exists m, In (Display (TamSim.draw_display (s_pet (fst r)) m)) (snd r)) /\
  settled (fst r).
Proof.
  intros Ht. cbv zeta. unfold TamSim.loop_body. cbv iota beta.
  assert (N1 : s_needs_draw (TamSim.tick_step now s) = true).
  { unfold TamSim.tick_step. rewrite Ht.
    destruct (TamSim.update_tick (s_pet s) (s_rng s)). reflexivity. }
  pose proof (sim_input_step_pending K now pins (TamSim.tick_step now s))
    as N2.
  rewrite N1 in N2.
  destruct (TamSim.input_step now pins (TamSim.tick_step now s)) as [s2 a].
  cbn [fst] in N2.
  pose proof (sim_draw_step_pending K false a (TamSim.mark_draw a s2)
                (sim_mark_draw_pending K a s2 N2)) as H.
  cbv zeta in H.
  destruct (TamSim.draw_step false a (TamSim.mark_draw a s2)) as [s3 o3].
  cbn [fst snd app] in *. destruct H as [Hin Hset].
  split; [eexists; exact Hin | exact Hset].
Qed.

Lemma sim_file_shows_every_tick_witness :
  let s := mkSession (K := ms_clock) (mkPet 85 50 9 false "hungry")
             (rng_of [0; 1; 0]) 0 EmptyString 0 false in
  tick_elapsed ms_clock 20000 (s_last_tick s) = true /\
  state (s_pet (fst (TamSim.loop_body (K := ms_clock) false 20000 EmptyString
                       (held []) s))) = "dead" /\
  settled (fst (TamSim.loop_body (K := ms_clock) false 20000 EmptyString
                  (held []) s)).
Proof.
  cbv zeta. split; [reflexivity|]. split; [vm_compute; reflexivity|].
  exact (proj2 (sim_file_shows_every_tick ms_clock 20000 EmptyString (held [])
    (mkSession (K := ms_clock) (mkPet 85 50 9 false "hungry")
       (rng_of [0; 1; 0]) 0 EmptyString 0 false) eq_refl)).
Defined.

Lemma draw_steps_agree (K : Clock) (a : bool) (s : session K) :
  state (s_pet s) <> "dead" \/ a = true ->
  fst (TamSim.draw_step false a s) = fst (Tamagotchi.draw_step a s) /\
  filter is_display (snd (TamSim.draw_step false a s)) =
    filter is_display (snd (Tamagotchi.draw_step a s)) /\
  filter is_sleep (snd (TamSim.draw_step false a s)) =
    filter is_sleep (snd (Tamagotchi.draw_step a s)).
Proof.
  intros H.
  assert (E : (String.eqb (state (s_pet s)) "dead" && negb a)%bool = false).
  { destruct H as [H | ->]; [|apply andb_false_r].
    apply dead_neqb in H. rewrite H. reflexivity. }
  unfold TamSim.draw_step, Tamagotchi.draw_step. rewrite E.
  destruct (s_needs_draw s); [|repeat split].
  destruct a; repeat split.
Qed.

(** X16. The two loops differ only on the dead pet. On a pet whose stats
    are in [0,100], an iteration of tam_sim.py in hardware mode and an
    iteration of tamagotchi.py with the same clock reading and pins leave
    the same session, display the same images and sleep the same times,
    as long as the pet is not dead when the iteration ends. *)
Theorem loops_agree_on_live_pet (K : Clock) (now : time K) (typed : string)
    (gpio : Z -> Z) (s : session K) :
  0 <= hunger (s_pet s) <= 100 -> 0 <= happiness (s_pet s) <= 100 ->
  state (s_pet (fst (Tamagotchi.loop_body now gpio s))) <> "dead" ->
  fst (TamSim.loop_body false now typed gpio s) =
    fst (Tamagotchi.loop_body now gpio s) /\
  filter is_display (snd (TamSim.loop_body false now typed gpio s)) =
    filter is_display (snd (Tamagotchi.loop_body now gpio s)) /\
  filter is_sleep (snd (TamSim.loop_body false now typed gpio s)) =
    filter is_sleep (snd (Tamagotchi.loop_body now gpio s)).
Proof.
  intros Hh Hj.
  assert (Hr : in_range (s_pet (Tamagotchi.tick_step now s)))
    by (apply tick_step_in_range; split; assumption).
  unfold TamSim.loop_body, Tamagotchi.loop_body. cbv iota beta.
  change (TamSim.tick_step now s) with (Tamagotchi.tick_step now s).
  rewrite input_step_same by exact Hr.
  destruct (Tamagotchi.input_step now gpio (Tamagotchi.tick_step now s))
    as [s2 a].
  change (TamSim.mark_draw a s2) with (Tamagotchi.mark_draw a s2).
  intros Hlive.
  assert (Hs : state (s_pet (Tamagotchi.mark_draw a s2)) <> "dead" \/ a = true).
  { left.
    destruct (hw_draw_step_keeps K a (Tamagotchi.mark_draw a s2)) as (E & _).
    destruct (Tamagotchi.draw_step a (Tamagotchi.mark_draw a s2)).
    cbn [fst] in *. rewrite <- E. exact Hlive. }
  destruct (draw_steps_agree K a (Tamagotchi.mark_draw a s2) Hs)
    as (E1 & E2 & E3).
  destruct (TamSim.draw_step false a (Tamagotchi.mark_draw a s2)) as [s3 o3].
  destruct (Tamagotchi.draw_step a (Tamagotchi.mark_draw a s2)) as [s4 o4].
  cbn [fst snd app] in *. auto.
Qed.

Lemma loops_agree_on_live_pet_witness :
  let s := Tamagotchi.main_start (K := ms_clock) 0 0 (rng_of [0; 1; 1]) in
  0 <= hunger (s_pet s) <= 100 /\ 0 <= happiness (s_pet s) <= 100 /\
  fst (TamSim.loop_body (K := ms_clock) false 20000 EmptyString (held [6]) s) =
  fst (Tamagotchi.loop_body (K := ms_clock) 20000 (held [6]) s).
Proof.
  cbv zeta.
  assert (Hh : 0 <= hunger (s_pet (Tamagotchi.main_start (K := ms_clock) 0 0
                                     (rng_of [0; 1; 1]))) <= 100)
    by (cbn; lia).
  assert (Hj : 0 <= happiness (s_pet (Tamagotchi.main_start (K := ms_clock) 0 0
                                        (rng_of [0; 1; 1]))) <= 100)
    by (cbn; lia).
  split; [exact Hh|]. split; [exact Hj|].
  refine (proj1 (loops_agree_on_live_pet ms_clock 20000 EmptyString (held [6])
                   (Tamagotchi.main_start (K := ms_clock) 0 0
                      (rng_of [0; 1; 1])) Hh Hj _)).
  vm_compute. discriminate.
Defined.

(** ** More on the pet *)

Lemma live_awake_stats (p : pet) :
  coherent p -> is_asleep p = false -> state p <> "dead" ->
  hunger p <= 85 /\ 15 <= happiness p.
Proof.
  unfold coherent, derive_state. intros Hc Ha Hd. rewrite Ha in Hc.
  destruct (Z.gtb_spec (hunger p) 85); destruct (Z.ltb_spec (happiness p) 15);
    cbn [orb] in Hc; try contradiction. lia.
Qed.

Lemma derive_not_dead (h j : Z) (a : bool) :
  h <= 85 -> 15 <= j -> derive_state h j a <> "dead".
Proof.
  intros Hh Hj. unfold derive_state. destruct a; [discriminate|].
  destruct (Z.gtb_spec h 85); [lia|].
  destruct (Z.ltb_spec j 15); [lia|]. cbn [orb].
  destruct (h >? 70); [discriminate|].
  destruct (j <? 30); [discriminate|].
  destruct (j >? 80); discriminate.
Qed.

Lemma hw_feed_never_kills (p : pet) :
  sound p -> state p <> "dead" -> state (snd (Tamagotchi.feed p)) <> "dead".
Proof.
  intros [[Hh Hj] Hc] Hd.
  destruct (is_asleep p) eqn:Ha.
  - rewrite hw_feed_guarded by auto. exact Hd.
  - destruct (live_awake_stats p Hc Ha Hd) as [H85 H15].
    rewrite hw_feed_live by assumption. cbn [snd].
    destruct (update_state_fields
                (mkPet (clamp (hunger p - 25)) (clamp (happiness p + 5))
                       (age p) false (state p))) as (_ & _ & _ & _ & ->).
    cbn [hunger happiness is_asleep].
    apply derive_not_dead; unfold clamp; lia.
Qed.

(** X17. Feeding never kills. From any reachable state of either class in
    which the pet is not dead, a call of feed leaves a pet that is not dead
    (the call is refused when the pet sleeps, and otherwise lowers hunger
    and raises happiness, away from the lethal range). *)
Theorem feed_never_kills (C : PetClass) (w : pet * rng) :
  C = hw_class \/ C = sim_class ->
  reachable C w ->
  state (fst w) <> "dead" ->
  state (fst (exec C Feed w)) <> "dead".
Proof.
  intros HC Hr Hd.
  pose proof (reachable_sound C w HC Hr) as Hs.
  assert (E : exec C Feed w = exec hw_class Feed w).
  { destruct HC as [-> | ->]; [reflexivity | apply exec_same, Hs]. }
  rewrite E. cbn [exec hw_class m_feed fst].
  apply hw_feed_never_kills; assumption.
Qed.

Lemma feed_never_kills_witness :
  let w := run sim_class [Play; Play; Play; Tick]
               (new sim_class, rng_of [0; 1; 1]) in
  reachable sim_class w /\ state (fst w) <> "dead" /\ hunger (fst w) = 82 /\
  state (fst (exec sim_class Feed w)) <> "dead".
Proof.
  cbv zeta.
  assert (Hd : state (fst (run sim_class [Play; Play; Play; Tick]
                             (new sim_class, rng_of [0; 1; 1]))) <> "dead")
    by (vm_compute; discriminate).
  split; [apply reachable_from_new|]. split; [exact Hd|].
  split; [vm_compute; reflexivity|].
  apply (feed_never_kills sim_class).
  - right. reflexivity.
  - apply reachable_from_new.
  - exact Hd.
Defined.

Lemma exec_hw_age (c : call) (w : pet * rng) :
  state (fst w) <> "dead" ->
  age (fst (exec hw_class c w)) =
  age (fst w) + count_ticks [c].
Proof.
  destruct w as [p g]. cbn [fst]. intros Hd.
  destruct c; cbn [exec hw_class m_update_tick m_feed m_play m_toggle_sleep
                   fst snd]; unfold count_ticks; cbn [filter length Z.of_nat].
  - rewrite update_tick_live by assumption.
    destruct (is_asleep p);
      match goal with |- context [if ?b then _ else _] => destruct b end;
      cbn [fst];
      match goal with
      | |- age (Tamagotchi.update_state ?q) = _ =>
          destruct (update_state_fields q) as (_ & _ & -> & _)
      end; cbn [age]; lia.
  - destruct (is_asleep p) eqn:Ha.
    + rewrite hw_feed_guarded by auto. cbn [snd]. lia.
    + rewrite hw_feed_live by assumption. cbn [snd].
      match goal with
      | |- age (Tamagotchi.update_state ?q) = _ =>
          destruct (update_state_fields q) as (_ & _ & -> & _)
      end. cbn [age]. lia.
  - destruct (is_asleep p) eqn:Ha.
    + rewrite hw_play_guarded by auto. cbn [snd]. lia.
    + rewrite hw_play_live by assumption. cbn [snd].
      match goal with
      | |- age (Tamagotchi.update_state ?q) = _ =>
          destruct (update_state_fields q) as (_ & _ & -> & _)
      end. cbn [age]. lia.
  - rewrite toggle_sleep_live by assumption. cbn [snd].
    match goal with
    | |- age (Tamagotchi.update_state ?q) = _ =>
        destruct (update_state_fields q) as (_ & _ & -> & _)
    end. cbn [age]. lia.
Qed.

Lemma count_ticks_cons (c : call) (cs : list call) :
  count_ticks (c :: cs) = count_ticks [c] + count_ticks cs.
Proof. unfold count_ticks. destruct c; cbn [filter length]; lia. Qed.

Lemma count_ticks_nonneg (cs : list call) : 0 <= count_ticks cs.
Proof. unfold count_ticks. lia. Qed.

(** X18. Age counts the ticks lived. Along any sequence of calls made on
    any pet (tamagotchi.py), age never decreases and grows by at most the
    number of update_tick calls; when the pet is not dead at the end, age
    has grown by exactly that number, the other calls leaving it alone. *)
Theorem age_counts_live_ticks (cs : list call) (w : pet * rng) :
  age (fst w) <= age (fst (run hw_class cs w)) <=
    age (fst w) + count_ticks cs /\
  (state (fst (run hw_class cs w)) <> "dead" ->
   age (fst (run hw_class cs w)) = age (fst w) + count_ticks cs).
Proof.
  revert w. induction cs as [| c cs IH]; intros w.
  - cbn [run]. unfold count_ticks. cbn. split; [lia | intros _; lia].
  - cbn [run]. rewrite count_ticks_cons.
    pose proof (count_ticks_nonneg [c]) as H0.
    pose proof (count_ticks_nonneg cs) as H1.
    destruct w as [p g]. case_dead p.
    + rewrite exec_hw_dead by assumption.
      rewrite (run_dead hw_class cs p g)
        by (intros c'; apply exec_hw_dead; assumption).
      cbn [fst]. split; [lia | intros N; contradiction].
    + pose proof (exec_hw_age c (p, g) Edead) as E.
      destruct (IH (exec hw_class c (p, g))) as [[Hlo Hhi] Hex].
      cbn [fst] in *. split; [lia|].
      intros N. rewrite (Hex N). lia.
Qed.

(** X19. Two presses of the sleep button cancel. On a pet whose state is up
    to date and not dead, and whose stats are not lethal if it sleeps,
    toggle_sleep called twice succeeds twice and gives back the very pet it
    started from. *)
Theorem toggle_sleep_twice (p : pet) :
  coherent p -> state p <> "dead" ->
  (is_asleep p = true -> hunger p <= 85 /\ 15 <= happiness p) ->
  fst (Tamagotchi.toggle_sleep p) = true /\
  Tamagotchi.toggle_sleep (snd (Tamagotchi.toggle_sleep p)) = (true, p).
Proof.
  intros Hc Hd Hsafe. rewrite toggle_sleep_live by assumption.
  cbn [fst snd]. split; [reflexivity|].
  rewrite update_state_derive. cbn [hunger happiness age is_asleep state].
  destruct p as [h j a s st]. unfold coherent in Hc.
  cbn [hunger happiness age is_asleep state set_state] in *.
  assert (Hmid : derive_state h j (negb s) <> "dead").
  { destruct s; [|discriminate].
    destruct (Hsafe eq_refl). apply derive_not_dead; assumption. }
  rewrite toggle_sleep_live by exact Hmid.
  rewrite update_state_derive.
  cbn [hunger happiness age is_asleep state set_state].
  rewrite negb_involutive, <- Hc. reflexivity.
Qed.

Lemma toggle_sleep_twice_witness :
  let p := mkPet 75 20 8 false "hungry" in
  coherent p /\ state p <> "dead" /\
  Tamagotchi.toggle_sleep (snd (Tamagotchi.toggle_sleep p)) = (true, p).
Proof.
  cbv zeta.
  assert (Hc : coherent (mkPet 75 20 8 false "hungry")) by reflexivity.
  assert (Hd : state (mkPet 75 20 8 false "hungry") <> "dead")
    by discriminate.
  split; [exact Hc|]. split; [exact Hd|].
  refine (proj2 (toggle_sleep_twice (mkPet 75 20 8 false "hungry") Hc Hd _)).
  discriminate.
Defined.

Ltac read_update_state :=
  repeat match goal with
         | |- context [hunger (Tamagotchi.update_state ?q)] =>
             let H := fresh in
             destruct (update_state_fields q) as (H & _); rewrite !H; clear H
         | |- context [happiness (Tamagotchi.update_state ?q)] =>
             let H := fresh in
             destruct (update_state_fields q) as (_ & H & _); rewrite !H;
             clear H
         | |- context [age (Tamagotchi.update_state ?q)] =>
             let H := fresh in
             destruct (update_state_fields q) as (_ & _ & H & _); rewrite !H;
             clear H
         | |- context [is_asleep (Tamagotchi.update_state ?q)] =>
             let H := fresh in
             destruct (update_state_fields q) as (_ & _ & _ & H & _);
             rewrite !H; clear H
         end;
  cbn [hunger happiness age is_asleep].

(** X20. The direction and size of every change. On a pet with stats in
    [0,100] (tamagotchi.py): a tick never lowers hunger and raises it by at
    most 2, raises happiness by at most 1 when the pet sleeps and lowers it
    by at most 2 when it is awake; feed lowers hunger by at most 25 and
    raises happiness by at most 5; play raises hunger by at most 10 and
    happiness by at most 20; toggle_sleep changes neither. So only feed can
    lower hunger and only a tick of an awake pet can lower happiness. *)
Theorem stat_directions (c : call) (w : pet * rng) :
  0 <= hunger (fst w) <= 100 -> 0 <= happiness (fst w) <= 100 ->
  let p := fst w in
  let q := fst (exec hw_class c w) in
  match c with
  | Tick =>
      hunger p <= hunger q <= hunger p + 2 /\
      (if is_asleep p
       then happiness p <= happiness q <= happiness p + 1
       else happiness p - 2 <= happiness q <= happiness p)
  | Feed =>
      hunger p - 25 <= hunger q <= hunger p /\
      happiness p <= happiness q <= happiness p + 5
  | Play =>
      hunger p <= hunger q <= hunger p + 10 /\
      happiness p <= happiness q <= happiness p + 20
  | ToggleSleep => hunger q = hunger p /\ happiness q = happiness p
  end.
Proof.
  destruct w as [p g]. cbn [fst]. intros Hh Hj. cbv zeta.
  destruct c; cbn [exec hw_class m_update_tick m_feed m_play m_toggle_sleep
                   fst snd].
  - case_dead p.
    + rewrite update_tick_dead by assumption. cbn [fst].
      destruct (is_asleep p); lia.
    + rewrite update_tick_live by assumption.
      pose proof (randint_range 0 1 (advance 1 g) ltac:(lia)) as D01.
      pose proof (randint_range 1 2 (advance 1 g) ltac:(lia)) as D1.
      pose proof (randint_range 1 2 (advance 2 g) ltac:(lia)) as D2.
      fold (draw 0 1 1 g) in D01. fold (draw 1 2 1 g) in D1.
      fold (draw 1 2 2 g) in D2.
      destruct (is_asleep p);
        match goal with |- context [if ?b then _ else _] => destruct b end;
        cbn [fst]; read_update_state; unfold clamp; lia.
  - destruct (is_asleep p) eqn:Ha; [|case_dead p].
    1,2: rewrite hw_feed_guarded by auto; cbn [snd]; lia.
    rewrite hw_feed_live by assumption. cbn [snd].
    read_update_state. unfold clamp. lia.
  - destruct (is_asleep p) eqn:Ha; [|case_dead p].
    1,2: rewrite hw_play_guarded by auto; cbn [snd]; lia.
    rewrite hw_play_live by assumption. cbn [snd].
    read_update_state. unfold clamp. lia.
  - case_dead p.
    + rewrite toggle_sleep_dead by assumption. cbn [snd]. auto.
    + rewrite toggle_sleep_live by assumption. cbn [snd].
      read_update_state. auto.
Qed.

Lemma stat_directions_witness :
  let w := (mkPet 99 1 3 true "asleep", rng_of [0; 1]) in
  0 <= hunger (fst w) <= 100 /\ 0 <= happiness (fst w) <= 100 /\
  hunger (fst w) <= hunger (fst (exec hw_class Tick w)) <= hunger (fst w) + 2.
Proof.
  cbv zeta.
  assert (Hh : 0 <= hunger (fst (mkPet 99 1 3 true "asleep", rng_of [0; 1]))
               <= 100) by (cbn; lia).
  assert (Hj : 0 <= happiness (fst (mkPet 99 1 3 true "asleep", rng_of [0; 1]))
               <= 100) by (cbn; lia).
  split; [exact Hh|]. split; [exact Hj|].
  exact (proj1 (stat_directions Tick
                  (mkPet 99 1 3 true "asleep", rng_of [0; 1]) Hh Hj)).
Defined.

Lemma asleep_tick (p : pet) (g : rng) :
  is_asleep p = true -> state p <> "dead" -> in_range p ->
  let q := fst (Tamagotchi.update_tick p g) in
  is_asleep q = true /\ state q = "asleep" /\ age q = age p + 1 /\
  hunger p <= hunger q <= hunger p + 1 /\
  happiness p <= happiness q <= happiness p + 1 /\
  in_range q.
Proof.
  intros Ha Hd [Hh Hj]. cbv zeta.
  rewrite update_tick_live by assumption. rewrite Ha.
  pose proof (randint_range 0 1 (advance 1 g) ltac:(lia)) as D01.
  fold (draw 0 1 1 g) in D01.
  destruct (draw 1 6 0 g =? 1); cbn [fst];
    match goal with
    | |- context [Tamagotchi.update_state ?q] =>
        destruct (update_state_fields q) as (E1 & E2 & E3 & E4 & E5)
    end;
    unfold in_range; rewrite E1, E2, E3, E4, E5;
    cbn [hunger happiness age is_asleep]; unfold clamp;
    repeat split; try reflexivity; lia.
Qed.

(** X21. A sleeping pet outlives any number of ticks. On a sleeping pet
    that is not dead and has stats in [0,100], n calls of update_tick leave
    it asleep with state "asleep", age it by exactly n, and raise hunger
    and happiness by at most n each, never lowering them, whatever the
    draws are. *)
Theorem sleeping_pet_survives_ticks (n : nat) (p : pet) (g : rng) :
  is_asleep p = true -> state p <> "dead" ->
  0 <= hunger p <= 100 -> 0 <= happiness p <= 100 ->
  let q := fst (run hw_class (repeat Tick n) (p, g)) in
  is_asleep q = true /\ state q <> "dead" /\
  age q = age p + Z.of_nat n /\
  hunger p <= hunger q <= hunger p + Z.of_nat n /\
  happiness p <= happiness q <= happiness p + Z.of_nat n.
Proof.
  intros Ha Hd Hh Hj. cbv zeta.
  assert (Hr : in_range p) by (split; assumption). clear Hh Hj.
  revert p g Ha Hd Hr. induction n as [| n IH]; intros p g Ha Hd Hr.
  - cbn [repeat run fst]. repeat split; try assumption; lia.
  - cbn [repeat run exec hw_class m_update_tick fst snd].
    destruct (asleep_tick p g Ha Hd Hr) as (Ha1 & Hs1 & Eage & Hhu & Hha & Hr1).
    destruct (Tamagotchi.update_tick p g) as [p1 g1]. cbn [fst] in *.
    assert (Hd1 : state p1 <> "dead") by (rewrite Hs1; discriminate).
    destruct (IH p1 g1 Ha1 Hd1 Hr1) as (Ha2 & Hd2 & Eage2 & Hhu2 & Hha2).
    repeat split; try assumption; lia.
Qed.

Lemma sleeping_pet_survives_ticks_witness :
  let p := mkPet 99 10 0 true "asleep" in
  is_asleep p = true /\ state p <> "dead" /\
  state (fst (run hw_class (repeat Tick 5)
                (p, rng_of [0; 1; 0; 1; 0; 1; 0; 1; 0; 1]))) <> "dead".
Proof.
  cbv zeta.
  assert (Hd : state (mkPet 99 10 0 true "asleep") <> "dead") by discriminate.
  split; [reflexivity|]. split; [exact Hd|].
  refine (proj1 (proj2 (sleeping_pet_survives_ticks 5
    (mkPet 99 10 0 true "asleep") (rng_of [0; 1; 0; 1; 0; 1; 0; 1; 0; 1])
    eq_refl Hd _ _))); cbn; lia.
Defined.

(** X22. When playing kills. From a reachable state of either class in
    which the pet is awake and not dead, play leaves the pet dead exactly
    when its hunger was 76 or more: the ten points it adds then pass 85,
    and the happiness it adds can never be the cause. *)
Theorem play_kills_iff_hungry (C : PetClass) (w : pet * rng) :
  C = hw_class \/ C = sim_class ->
  reachable C w ->
  is_asleep (fst w) = false -> state (fst w) <> "dead" ->
  state (fst (exec C Play w)) = "dead" <-> 76 <= hunger (fst w).
Proof.
  intros HC Hr Ha Hd.
  destruct (reachable_sound C w HC Hr) as [[Hh Hj] Hc].
  assert (E : exec C Play w = exec hw_class Play w).
  { destruct HC as [-> | ->]; [reflexivity|].
    apply exec_same. split; assumption. }
  rewrite E. cbn [exec hw_class m_play fst].
  destruct (live_awake_stats (fst w) Hc Ha Hd) as [H85 H15].
  rewrite hw_play_live by assumption. cbn [snd].
  destruct (update_state_fields
              (mkPet (clamp (hunger (fst w) + 10))
                     (clamp (happiness (fst w) + 20))
                     (age (fst w)) false (state (fst w))))
    as (_ & _ & _ & _ & ->).
  cbn [hunger happiness is_asleep].
  split.
  - intros Hdead.
    destruct (Z_lt_le_dec (hunger (fst w)) 76) as [Hlt | Hge]; [|exact Hge].
    exfalso. revert Hdead. apply derive_not_dead; unfold clamp; lia.
  - intros Hge. unfold derive_state.
    destruct (Z.gtb_spec (clamp (hunger (fst w) + 10)) 85) as [_ | N];
      [reflexivity|].
    unfold clamp in N. lia.
Qed.

Lemma play_kills_iff_hungry_witness :
  let w := run hw_class [Play; Play; Play] (new hw_class, rng_of []) in
  reachable hw_class w /\ is_asleep (fst w) = false /\
  state (fst w) <> "dead" /\ hunger (fst w) = 80 /\
  state (fst (exec hw_class Play w)) = "dead".
Proof.
  cbv zeta.
  assert (Hd : state (fst (run hw_class [Play; Play; Play]
                             (new hw_class, rng_of []))) <> "dead")
    by (vm_compute; discriminate).
  split; [apply reachable_from_new|]. split; [reflexivity|].
  split; [exact Hd|]. split; [reflexivity|].
  apply (play_kills_iff_hungry hw_class).
  - left. reflexivity.
  - apply reachable_from_new.
  - reflexivity.
  - exact Hd.
  - vm_compute. discriminate.
Defined.
